(** * GitHub multi-user invite: the request wrapper of [utils.py]

    A shallow embedding of class [github] of [src/utils.py]: the retry
    and error-classification loop of [gh_request] and the four endpoint
    helpers built on it.

    Python integers are [Z]; strings are sequences of code points below
    256 ([string]); a [dict] is an association list in insertion order,
    the order in which [json.dumps] prints it.  The program talks to the
    outside through [requests.request], [time.sleep], the module logger
    and [print]: every such call is an [Event] appended to the world, and
    the answer of the network to the [k]-th request is given by an oracle
    [server].  Exceptions are values of [exn] threaded by the monad [M]. *)

From Stdlib Require Import ZArith List String Ascii Bool Lia.
From Stdlib Require Import DecimalString.
Import ListNotations.
Open Scope string_scope.
Open Scope Z_scope.

(** ** Python values *)

Set Warnings "-register-all".

(** What [json.loads] yields and [json.dumps] accepts (floats left out). *)
Inductive JSON : Type :=
| JNull
| JBool (b : bool)
| JInt (n : Z)
| JStr (s : string)
| JList (items : list JSON)
| JDict (fields : list (string * JSON)).

Set Warnings "register-all".

(** [str(n)] for an int. *)
Definition str_int (n : Z) : string := NilEmpty.string_of_int (Z.to_int n).

Definition dquote : string := String "034"%char EmptyString.
Definition backslash : string := String "092"%char EmptyString.

Definition hex_digit (n : nat) : string :=
  String (nth n (list_ascii_of_string "0123456789abcdef") "0"%char) EmptyString.

(** One character of [json.encoder.py_encode_basestring_ascii]. *)
Definition escape_char (ch : ascii) : string :=
  let n := nat_of_ascii ch in
  if Nat.eqb n 34 then backslash ++ dquote
  else if Nat.eqb n 92 then backslash ++ backslash
  else if Nat.eqb n 10 then backslash ++ "n"
  else if Nat.eqb n 13 then backslash ++ "r"
  else if Nat.eqb n 9 then backslash ++ "t"
  else if Nat.eqb n 8 then backslash ++ "b"
  else if Nat.eqb n 12 then backslash ++ "f"
  else if (Nat.leb 32 n && Nat.leb n 126)%bool then String ch EmptyString
  else backslash ++ "u00" ++ hex_digit (Nat.div n 16) ++ hex_digit (Nat.modulo n 16).

Fixpoint escape_string (s : string) : string :=
  match s with
  | EmptyString => EmptyString
  | String ch rest => escape_char ch ++ escape_string rest
  end.

Definition json_quote (s : string) : string := dquote ++ escape_string s ++ dquote.

(** [json.dumps] with its default separators [", "] and [": "]. *)
Fixpoint json_dumps (j : JSON) : string :=
  match j with
  | JNull => "null"
  | JBool true => "true"
  | JBool false => "false"
  | JInt n => str_int n
  | JStr s => json_quote s
  | JList items =>
      "[" ++ (fix elems (l : list JSON) : string :=
                match l with
                | [] => EmptyString
                | x :: [] => json_dumps x
                | x :: rest => json_dumps x ++ ", " ++ elems rest
                end) items ++ "]"
  | JDict fields =>
      "{" ++ (fix members (l : list (string * JSON)) : string :=
                match l with
                | [] => EmptyString
                | (k, v) :: [] => json_quote k ++ ": " ++ json_dumps v
                | (k, v) :: rest => json_quote k ++ ": " ++ json_dumps v ++ ", " ++ members rest
                end) fields ++ "}"
  end.


(** ** Requests, responses and exceptions *)

(** The payload of a response as [res.json()] sees it: the document it
    decodes to, or the text of the [JSONDecodeError] it raises (an HTML
    error page, an empty body). *)
Inductive Body : Type :=
| Document (doc : JSON)
| Undecodable (msg : string).

Coercion Document : JSON >-> Body.

(** [requests.Response], as far as the program reads it: [res.status_code]
    and the payload behind [res.json()]. *)
Record Response : Type := mkResponse {
  status_code : Z;
  json : Body
}.

(** The keyword arguments of [requests.request]. *)
Record Request : Type := mkRequest {
  req_method : string;
  req_url : string;
  req_headers : list (string * string);
  req_data : option string;
  req_timeout : Z
}.

(** The exceptions the program raises or handles.  [Timeout] is a subclass
    of [RequestException] in [requests], and so is the [JSONDecodeError]
    of [res.json()], which carries no response; [GithubAPIError] derives
    from [Exception] only, so neither handler of [gh_request] catches it,
    nor the [ValueError] and [OverflowError] of [time.sleep]. *)
Inductive exn : Type :=
| Timeout (msg : string)
| RequestException (msg : string) (response : option Response)
| GithubAPIError (message : string) (status : option Z) (response : option JSON)
| TypeError (msg : string)
| KeyError (key : string)
| AttributeError (msg : string)
| ValueError (msg : string)
| OverflowError (msg : string).

(** [str(e)] *)
Definition str_exn (e : exn) : string :=
  match e with
  | Timeout msg | RequestException msg _ | GithubAPIError msg _ _
  | TypeError msg | AttributeError msg | ValueError msg | OverflowError msg => msg
  | KeyError key => "'" ++ key ++ "'"
  end.

(** What one call of [requests.request] can end in. *)
Inductive NetOutcome : Type :=
| Answered (res : Response)
| TimedOut (msg : string)
| Errored (msg : string) (response : option Response).

Inductive Level : Type := WARNING | ERROR.

Inductive Event : Type :=
| Http (req : Request)
| Sleep (seconds : Z)
| Log (level : Level) (msg : string)
| Print (line : string).

(** The world is the chronological list of events so far. *)
Definition World : Type := list Event.

Fixpoint requests_of (w : World) : list Request :=
  match w with
  | [] => []
  | Http req :: rest => req :: requests_of rest
  | _ :: rest => requests_of rest
  end.

Fixpoint sleeps_of (w : World) : list Z :=
  match w with
  | [] => []
  | Sleep s :: rest => s :: sleeps_of rest
  | _ :: rest => sleeps_of rest
  end.

(** Number of requests sent so far. *)
Definition sent (w : World) : nat := List.length (requests_of w).

(** ** The monad of effectful code *)

Definition M (A : Type) : Type := World -> (exn + A) * World.

Definition ret {A} (a : A) : M A := fun w => (inr a, w).

Definition bind {A B} (m : M A) (k : A -> M B) : M B :=
  fun w => match m w with
           | (inr a, w') => k a w'
           | (inl e, w') => (inl e, w')
           end.

Definition raise {A} (e : exn) : M A := fun w => (inl e, w).

Definition emit (ev : Event) : M unit := fun w => (inr tt, (w ++ [ev])%list).

(** [try: body except ...: handler]: [handler e] is [None] when no
    [except] clause matches [e], which then propagates. *)
Definition try_except {A} (body : M A) (handler : exn -> option (M A)) : M A :=
  fun w => match body w with
           | (inl e, w') =>
               match handler e with
               | Some h => h w'
               | None => (inl e, w')
               end
           | r => r
           end.

Notation "x <- m ;; k" := (bind m (fun x => k))
  (at level 61, m at next level, right associativity).
Notation "m ;; k" := (bind m (fun _ => k))
  (at level 61, right associativity).

Definition logger_warning (msg : string) : M unit := emit (Log WARNING msg).
Definition logger_error (msg : string) : M unit := emit (Log ERROR msg).

(** The longest sleep [time.sleep] converts to its 64-bit count of
    nanoseconds, in seconds. *)
Definition sleep_limit : Z := 9223372036.

(** [time.sleep(seconds)] for an int: [OverflowError] out of the range of
    the conversion, [ValueError] for a negative length, and the sleep
    otherwise. *)
Definition time_sleep (seconds : Z) : M unit :=
  if (seconds <? - sleep_limit) || (sleep_limit <? seconds) then
    raise (OverflowError "timestamp too large to convert to C _PyTime_t")
  else if seconds <? 0 then
    raise (ValueError "sleep length must be non-negative")
  else emit (Sleep seconds).

(** [res.json()] *)
Definition res_json (res : Response) : M JSON :=
  match json res with
  | Document doc => ret doc
  | Undecodable msg => raise (RequestException msg None)
  end.

Definition print (line : string) : M unit := emit (Print line).

(** [raise GithubAPIError(message, status_code, response)]: the
    constructor logs the message at error level before the raise. *)
Definition raise_GithubAPIError {A} (message : string) (status : option Z)
    (response : option JSON) : M A :=
  logger_error ("GitHub API Error: " ++ message) ;;
  raise (GithubAPIError message status response).

Fixpoint for_each {A} (items : list A) (body : A -> M unit) : M unit :=
  match items with
  | [] => ret tt
  | x :: rest => body x ;; for_each rest body
  end.

(** [range(n)] *)
Definition range (n : Z) : list Z := map Z.of_nat (seq 0 (Z.to_nat n)).

(** [str(x)] for [x] an exception or [None]. *)
Definition str_last (last_exception : option exn) : string :=
  match last_exception with
  | Some e => str_exn e
  | None => "None"
  end.

(** The value a dict holds under [key], if any. *)
Definition lookup (fields : list (string * JSON)) (key : string) : option JSON :=
  option_map snd (find (fun kv => String.eqb (fst kv) key) fields).

(** [obj[key]] on a decoded JSON document. *)
Definition getitem (obj : JSON) (key : string) : M JSON :=
  match obj with
  | JDict fields =>
      match lookup fields key with
      | Some value => ret value
      | None => raise (KeyError key)
      end
  | JList _ => raise (TypeError "list indices must be integers or slices, not str")
  | JStr _ => raise (TypeError "string indices must be integers")
  | JNull => raise (TypeError "'NoneType' object is not subscriptable")
  | JBool _ => raise (TypeError "'bool' object is not subscriptable")
  | JInt _ => raise (TypeError "'int' object is not subscriptable")
  end.

(** [len(res)] for a [requests.Response], a class without [__len__]. *)
Definition len_Response (res : Response) : M Z :=
  raise (TypeError "object of type 'Response' has no len()").

(** [for team in n] for an int [n]. *)
Definition iter_int (n : Z) : M (list JSON) :=
  raise (TypeError "'int' object is not iterable").

(** [obj.name] on a decoded JSON document: none of them has attributes
    [name] or [id]. *)
Definition getattr (obj : JSON) (name : string) : M string :=
  raise (AttributeError ("object has no attribute '" ++ name ++ "'")).

(** ** class github *)

Record github : Type := mk_github {
  auth : string;
  org : option string;
  timeout : Z;
  max_retries : Z;
  retry_delay : Z
}.

Definition __init__ (auth : string) (org : option string) : github :=
  {| auth := auth; org := org; timeout := 30; max_retries := 3; retry_delay := 1 |}.

(** How an iteration of the [for] loop of [gh_request] ends, when it does
    not raise: [return res], or on to the next attempt with the value of
    [last_exception]. *)
Inductive Flow : Type :=
| Return (res : Response)
| Continue (last_exception : option exn).

Section Client.

(** The network: the outcome of the [k]-th request ever sent. *)
Variable server : nat -> Request -> NetOutcome.

Definition requests_request (req : Request) : M Response :=
  fun w =>
    match server (sent w) req with
    | Answered res => (inr res, (w ++ [Http req])%list)
    | TimedOut msg => (inl (Timeout msg), (w ++ [Http req])%list)
    | Errored msg response => (inl (RequestException msg response), (w ++ [Http req])%list)
    end.

(** The body of [for attempt in range(self.max_retries)]. *)
Definition gh_attempt (self : github) (req : Request) (attempt : Z)
    (last_exception : option exn) : M Flow :=
  try_except
    ((if 0 <? attempt then
        let retry_wait := retry_delay self * 2 ^ (attempt - 1) in
        logger_warning ("Retrying request (attempt " ++ str_int (attempt + 1) ++ "/"
                        ++ str_int (max_retries self) ++ ")") ;;
        time_sleep retry_wait
      else ret tt) ;;
     res <- requests_request req ;;
     if (400 <=? status_code res) && (status_code res <? 500)
        && negb (status_code res =? 403) then
       if status_code res =? 401 then
         doc <- res_json res ;;
         raise_GithubAPIError "Authentication failed. Please check your GitHub token"
           (Some (status_code res)) (Some doc)
       else if status_code res =? 404 then
         ret (Return res)
       else
         doc <- res_json res ;;
         raise_GithubAPIError ("Client error: " ++ str_int (status_code res))
           (Some (status_code res)) (Some doc)
     else if (status_code res =? 403) || (500 <=? status_code res) then
       if attempt =? max_retries self - 1 then
         if status_code res =? 403 then
           doc <- res_json res ;;
           raise_GithubAPIError "Rate limit exceeded or insufficient permissions"
             (Some (status_code res)) (Some doc)
         else
           doc <- res_json res ;;
           raise_GithubAPIError "GitHub server error"
             (Some (status_code res)) (Some doc)
       else ret (Continue last_exception)
     else ret (Return res))
    (fun e =>
       match e with
       | Timeout _ =>
           Some (if attempt =? max_retries self - 1 then
                   raise_GithubAPIError
                     ("Request timed out after " ++ str_int (timeout self) ++ " seconds")
                     None None
                 else ret (Continue (Some e)))
       | RequestException _ response =>
           Some (if attempt =? max_retries self - 1 then
                   raise_GithubAPIError ("Network error: " ++ str_exn e)
                     (option_map status_code response) None
                 else ret (Continue (Some e)))
       | _ => None
       end).

Fixpoint gh_loop (self : github) (req : Request) (attempts : list Z)
    (last_exception : option exn) : M Response :=
  match attempts with
  | [] =>
      raise_GithubAPIError ("All retry attempts failed: " ++ str_last last_exception)
        None None
  | attempt :: rest =>
      flow <- gh_attempt self req attempt last_exception ;;
      match flow with
      | Return res => ret res
      | Continue last_exception' => gh_loop self req rest last_exception'
      end
  end.

(** The request every attempt of one call sends. *)
Definition gh_request_args (self : github) (path method : string)
    (data : list (string * JSON)) : Request :=
  {| req_method := method;
     req_url := "https://api.github.com" ++ path;
     req_headers := [("Accept", "application/vnd.github+json");
                     ("Authorization", "Bearer " ++ auth self);
                     ("X-GitHub-Api-Version", "2022-11-28")];
     req_data := match data with
                 | [] => None
                 | _ => Some (json_dumps (JDict data))
                 end;
     req_timeout := timeout self |}.

(** [gh_request(self, path, method="GET", data={})] *)
Definition gh_request (self : github) (path method : string)
    (data : list (string * JSON)) : M Response :=
  gh_loop self (gh_request_args self path method data) (range (max_retries self)) None.

(** [invite_user_org(self, org, user, teams=[], role="direct_member")] *)
Definition invite_user_org (self : github) (org : string) (user : Z)
    (teams : list JSON) (role : string) : M Response :=
  res <- gh_request self ("/orgs/" ++ org ++ "/invitations") "POST"
           [("invitee_id", JInt user); ("role", JStr role); ("team_ids", JList teams)] ;;
  ret res.

Definition get_user_id (self : github) (user : string) : M (option JSON) :=
  res <- gh_request self ("/users/" ++ user) "GET" [] ;;
  if status_code res =? 200 then
    doc <- res_json res ;;
    id <- getitem doc "id" ;;
    ret (Some id)
  else ret None.

Definition list_teams (self : github) (org : string) : M unit :=
  res <- gh_request self ("/orgs/" ++ org ++ "/teams") "GET" [] ;;
  if status_code res =? 200 then
    n <- len_Response res ;;
    teams <- iter_int n ;;
    for_each teams (fun team =>
      name <- getattr team "name" ;;
      id <- getattr team "id" ;;
      print (name ++ " | id: " ++ id))
  else print "Something unexpected happened".

Definition is_user_member_of_org (self : github) (org : string) (user_id : Z) : M bool :=
  res <- gh_request self ("/orgs/" ++ org ++ "/members/" ++ str_int user_id) "GET" [] ;;
  ret (status_code res =? 204).

End Client.

(** What the retry branch at the top of an attempt adds to the world:
    nothing on the first attempt, a warning and the backoff sleep after. *)
Definition retry_prelude (self : github) (attempt : Z) : list Event :=
  if 0 <? attempt then
    [Log WARNING ("Retrying request (attempt " ++ str_int (attempt + 1) ++ "/"
                  ++ str_int (max_retries self) ++ ")");
     Sleep (retry_delay self * 2 ^ (attempt - 1))]
  else [].

(** The events of attempt [attempt] up to and including its request. *)
Definition attempt_events (self : github) (req : Request) (attempt : Z) : list Event :=
  (retry_prelude self attempt ++ [Http req])%list.

(** The error a call ends in when its last attempt is answered with a
    retryable status. *)
Definition exhausted_message (status : Z) : string :=
  if status =? 403 then "Rate limit exceeded or insufficient permissions"
  else "GitHub server error".

(** An outcome after which an attempt that is not the last goes on to the
    next one: a 403, a status from 500 up, a timeout, a network error,
    and also a client error whose body does not decode, since the
    [JSONDecodeError] of [res.json()] is handled as a network error. *)
Definition retried (o : NetOutcome) : Prop :=
  match o with
  | Answered res =>
      status_code res = 403 \/ 500 <= status_code res
      \/ (400 <= status_code res < 500 /\ status_code res <> 404
          /\ exists msg, json res = Undecodable msg)
  | TimedOut _ | Errored _ _ => True
  end.

(** The lengths [time.sleep] accepts. *)
Definition can_sleep (seconds : Z) : bool :=
  (0 <=? seconds) && (seconds <=? sleep_limit).

(** Every backoff the client can come to sleep is one [time.sleep]
    accepts: the delays before the attempts 1, ..., [max_retries - 1]. *)
Definition delays_ok (self : github) : Prop :=
  forall attempt, 0 < attempt < max_retries self ->
    can_sleep (retry_delay self * 2 ^ (attempt - 1)) = true.

(** The backoff before attempt [attempt], if there is one, is a length
    [time.sleep] accepts. *)
Definition backoff_ok (self : github) (attempt : Z) : Prop :=
  0 < attempt -> can_sleep (retry_delay self * 2 ^ (attempt - 1)) = true.

(** The warning logged before attempt [attempt]. *)
Definition retry_warning (self : github) (attempt : Z) : string :=
  "Retrying request (attempt " ++ str_int (attempt + 1) ++ "/"
  ++ str_int (max_retries self) ++ ")".

(** The events of the attempts [k], ..., [k + m - 1] of a call when each
    of them sends its request. *)
Definition attempts_events (self : github) (req : Request) (k m : nat) : list Event :=
  List.concat (map (attempt_events self req) (map Z.of_nat (seq k m))).

(** The headers the client puts on its requests. *)
Definition api_headers (self : github) : list (string * string) :=
  [("Accept", "application/vnd.github+json");
   ("Authorization", "Bearer " ++ auth self);
   ("X-GitHub-Api-Version", "2022-11-28")].

(** The request of [invite_user_org] for org acme, user 42, no teams and
    the default role, and its payload
    [{"invitee_id": 42, "role": "direct_member", "team_ids": []}]. *)
Definition acme_invitation_body : string :=
  "{" ++ dquote ++ "invitee_id" ++ dquote ++ ": 42, "
      ++ dquote ++ "role" ++ dquote ++ ": " ++ dquote ++ "direct_member" ++ dquote ++ ", "
      ++ dquote ++ "team_ids" ++ dquote ++ ": []}".

Definition acme_invitation (self : github) : Request :=
  {| req_method := "POST";
     req_url := "https://api.github.com/orgs/acme/invitations";
     req_headers := api_headers self;
     req_data := Some acme_invitation_body;
     req_timeout := timeout self |}.

(** What [res.json()] says of an HTML page. *)
Definition html_page : Body := Undecodable "Expecting value: line 1 column 1 (char 0)".

(** A network that answers every request with the same response, and one
    on which every request times out. *)
Definition answering (status : Z) (body : JSON) : nat -> Request -> NetOutcome :=
  fun _ _ => Answered {| status_code := status; json := body |}.

(** A network that answers every request with an HTML page under the
    given status. *)
Definition answering_html (status : Z) : nat -> Request -> NetOutcome :=
  fun _ _ => Answered {| status_code := status; json := html_page |}.

Definition unreachable : nat -> Request -> NetOutcome :=
  fun _ _ => TimedOut "Read timed out.".

(** A network that answers the requests in turn from a script, and with
    [final] once the script is used up. *)
Definition scripted (script : list NetOutcome) (final : NetOutcome)
  : nat -> Request -> NetOutcome :=
  fun k _ => nth k script final.

(** A client as [github(token)] builds it: timeout 30, three attempts,
    initial delay 1. *)
Definition client : github := __init__ "token" None.

Definition not_found : JSON := JDict [("message", JStr "Not Found")].
Definition bad_credentials : JSON := JDict [("message", JStr "Bad credentials")].
Definition octocat : JSON := JDict [("login", JStr "octocat"); ("id", JInt 583231)].

(** The errors an attempt can raise, by the outcome of its request:
    the two client errors at any attempt, the others at the last attempt
    only.  An error status whose body does not decode ends as a network
    error, without status. *)
Inductive api_failure (self : github) (attempt : Z) : NetOutcome -> exn -> Prop :=
| authentication_failed res doc :
    status_code res = 401 ->
    json res = Document doc ->
    api_failure self attempt (Answered res)
      (GithubAPIError "Authentication failed. Please check your GitHub token"
         (Some 401) (Some doc))
| client_error res doc :
    400 <= status_code res < 500 ->
    status_code res <> 401 -> status_code res <> 403 -> status_code res <> 404 ->
    json res = Document doc ->
    api_failure self attempt (Answered res)
      (GithubAPIError ("Client error: " ++ str_int (status_code res))
         (Some (status_code res)) (Some doc))
| retries_exhausted res doc :
    status_code res = 403 \/ 500 <= status_code res ->
    attempt = max_retries self - 1 ->
    json res = Document doc ->
    api_failure self attempt (Answered res)
      (GithubAPIError (exhausted_message (status_code res))
         (Some (status_code res)) (Some doc))
| undecodable_body res msg :
    400 <= status_code res -> status_code res <> 404 ->
    attempt = max_retries self - 1 ->
    json res = Undecodable msg ->
    api_failure self attempt (Answered res)
      (GithubAPIError ("Network error: " ++ msg) None None)
| timed_out msg :
    attempt = max_retries self - 1 ->
    api_failure self attempt (TimedOut msg)
      (GithubAPIError ("Request timed out after " ++ str_int (timeout self) ++ " seconds")
         None None)
| network_error msg response :
    attempt = max_retries self - 1 ->
    api_failure self attempt (Errored msg response)
      (GithubAPIError ("Network error: " ++ msg) (option_map status_code response) None).

(** The sleeps before the attempts 1, ..., [m]. *)
Definition backoff_schedule (self : github) (m : nat) : list Z :=
  map (fun attempt => retry_delay self * 2 ^ (attempt - 1)) (map Z.of_nat (seq 1 m)).

(** Seconds spent in [time.sleep]. *)
Definition total_slept (w : World) : Z := fold_right Z.add 0 (sleeps_of w).

(** The lines logged at a level, oldest first. *)
Fixpoint logged (level : Level) (w : World) : list string :=
  match w with
  | [] => []
  | Log l msg :: rest =>
      match level, l with
      | WARNING, WARNING | ERROR, ERROR => msg :: logged level rest
      | _, _ => logged level rest
      end
  | _ :: rest => logged level rest
  end.

(** The lines printed, oldest first. *)
Fixpoint printed (w : World) : list string :=
  match w with
  | [] => []
  | Print line :: rest => line :: printed rest
  | _ :: rest => printed rest
  end.

(** ** Sanity checks of the value layer *)

Example str_int_42 : str_int 42 = "42". Proof. reflexivity. Qed.
Example str_int_0 : str_int 0 = "0". Proof. reflexivity. Qed.
Example str_int_neg : str_int (-7) = "-7". Proof. reflexivity. Qed.
Example dumps_small :
  json_dumps (JDict [("a", JList [JInt 1; JNull]); ("b", JStr "x")])
  = "{" ++ dquote ++ "a" ++ dquote ++ ": [1, null], "
        ++ dquote ++ "b" ++ dquote ++ ": " ++ dquote ++ "x" ++ dquote ++ "}".
Proof. reflexivity. Qed.

(** ** Worlds *)

(** From here on [++] is list concatenation; strings are concatenated
    under [%string]. *)
Open Scope list_scope.

Lemma requests_of_app (w1 w2 : World) :
  requests_of (w1 ++ w2) = requests_of w1 ++ requests_of w2.
Proof.
  induction w1 as [|ev w1 IH]; simpl; [reflexivity|].
  destruct ev; simpl; now rewrite IH.
Qed.

Lemma sleeps_of_app (w1 w2 : World) :
  sleeps_of (w1 ++ w2) = sleeps_of w1 ++ sleeps_of w2.
Proof.
  induction w1 as [|ev w1 IH]; simpl; [reflexivity|].
  destruct ev; simpl; now rewrite IH.
Qed.

Lemma requests_of_prelude (self : github) (attempt : Z) :
  requests_of (retry_prelude self attempt) = [].
Proof. unfold retry_prelude. now destruct (0 <? attempt). Qed.

Lemma sent_prelude (self : github) (attempt : Z) (w : World) :
  sent (w ++ retry_prelude self attempt) = sent w.
Proof.
  unfold sent. rewrite requests_of_app, requests_of_prelude.
  now rewrite app_nil_r.
Qed.

Lemma requests_of_attempt (self : github) (req : Request) (attempt : Z) :
  requests_of (attempt_events self req attempt) = [req].
Proof.
  unfold attempt_events. now rewrite requests_of_app, requests_of_prelude.
Qed.

Lemma sent_attempt (self : github) (req : Request) (attempt : Z) (w : World) :
  sent (w ++ attempt_events self req attempt) = S (sent w).
Proof.
  unfold sent. rewrite requests_of_app, requests_of_attempt, length_app.
  simpl. lia.
Qed.

(** ** One attempt *)

Ltac decide_tests :=
  repeat match goal with
    | |- context [?a <=? ?b] => destruct (Z.leb_spec a b); try lia
    | |- context [?a <? ?b] => destruct (Z.ltb_spec a b); try lia
    | |- context [?a =? ?b] => destruct (Z.eqb_spec a b); try lia
    end.

Lemma time_sleep_accepted (seconds : Z) (w : World) :
  can_sleep seconds = true ->
  time_sleep seconds w = (inr tt, w ++ [Sleep seconds]).
Proof.
  unfold can_sleep, time_sleep. intros H.
  apply andb_true_iff in H. destruct H as [H0 H1].
  apply Z.leb_le in H0, H1. unfold sleep_limit in *.
  decide_tests; reflexivity.
Qed.

Lemma time_sleep_refused (seconds : Z) (w : World) :
  can_sleep seconds = false ->
  exists msg,
    time_sleep seconds w = (inl (ValueError msg), w)
    \/ time_sleep seconds w = (inl (OverflowError msg), w).
Proof.
  unfold can_sleep, time_sleep. intros H.
  apply andb_false_iff in H.
  assert (Hout : seconds < 0 \/ sleep_limit < seconds)
    by (destruct H as [H|H]; apply Z.leb_gt in H; lia).
  clear H. unfold sleep_limit in *.
  decide_tests; cbn [orb]; eexists;
    first [ right; reflexivity | left; reflexivity ].
Qed.

Lemma prelude_run (self : github) (attempt : Z) (w : World) :
  backoff_ok self attempt ->
  (if 0 <? attempt then
     let retry_wait := retry_delay self * 2 ^ (attempt - 1) in
     logger_warning ("Retrying request (attempt " ++ str_int (attempt + 1) ++ "/"
                     ++ str_int (max_retries self) ++ ")")%string ;;
     time_sleep retry_wait
   else ret tt) w
  = (inr tt, w ++ retry_prelude self attempt).
Proof.
  unfold retry_prelude, backoff_ok. intros Hok.
  destruct (Z.ltb_spec 0 attempt) as [Hpos|Hpos].
  - cbv zeta. unfold bind, logger_warning, emit.
    rewrite time_sleep_accepted by (apply Hok; exact Hpos).
    now rewrite <- app_assoc.
  - unfold ret. now rewrite app_nil_r.
Qed.

Lemma bind_value {A B} (m : M A) (k : A -> M B) (w w' : World) (a : A) :
  m w = (inr a, w') -> bind m k w = k a w'.
Proof. intros H. unfold bind. now rewrite H. Qed.

Lemma bind_raised {A B} (m : M A) (k : A -> M B) (w w' : World) (e : exn) :
  m w = (inl e, w') -> bind m k w = (inl e, w').
Proof. intros H. unfold bind. now rewrite H. Qed.

Lemma raise_GithubAPIError_run {A} (message : string) (status : option Z)
    (response : option JSON) (w : World) :
  @raise_GithubAPIError A message status response w
  = (inl (GithubAPIError message status response),
     w ++ [Log ERROR ("GitHub API Error: " ++ message)%string]).
Proof. reflexivity. Qed.

Ltac finish_attempt :=
  cbn [andb orb negb]; rewrite ?raise_GithubAPIError_run; unfold ret;
  cbv beta iota; rewrite <- ?app_assoc; reflexivity.

Ltac decode H :=
  unfold bind, res_json; rewrite H; unfold ret, raise; cbv beta iota.

Ltac run_attempt Hsleep H :=
  unfold gh_attempt, try_except;
  erewrite bind_value by (apply prelude_run; exact Hsleep);
  unfold bind at 1; unfold requests_request;
  rewrite sent_prelude, H; unfold attempt_events;
  rewrite <- ?app_assoc; cbv beta iota.

Section Attempt.

Variable server : nat -> Request -> NetOutcome.
Variable self : github.
Variable req : Request.

Lemma attempt_returns attempt last w res :
  backoff_ok self attempt ->
  server (sent w) req = Answered res ->
  status_code res < 400 \/ status_code res = 404 ->
  gh_attempt server self req attempt last w
  = (inr (Return res), w ++ attempt_events self req attempt).
Proof.
  intros Hsleep Hnet Hs. run_attempt Hsleep Hnet.
  decide_tests; finish_attempt.
Qed.

Lemma attempt_unauthorized attempt last w res doc :
  backoff_ok self attempt ->
  server (sent w) req = Answered res ->
  status_code res = 401 ->
  json res = Document doc ->
  gh_attempt server self req attempt last w
  = (inl (GithubAPIError "Authentication failed. Please check your GitHub token"
            (Some 401) (Some doc)),
     w ++ attempt_events self req attempt
       ++ [Log ERROR "GitHub API Error: Authentication failed. Please check your GitHub token"]).
Proof.
  intros Hsleep Hnet Hs Hdoc. run_attempt Hsleep Hnet. rewrite Hs.
  decide_tests; cbn [andb orb negb]; decode Hdoc; finish_attempt.
Qed.

Lemma attempt_client_error attempt last w res doc :
  backoff_ok self attempt ->
  server (sent w) req = Answered res ->
  400 <= status_code res < 500 ->
  status_code res <> 401 -> status_code res <> 403 -> status_code res <> 404 ->
  json res = Document doc ->
  gh_attempt server self req attempt last w
  = (inl (GithubAPIError ("Client error: " ++ str_int (status_code res))%string
            (Some (status_code res)) (Some doc)),
     w ++ attempt_events self req attempt
       ++ [Log ERROR ("GitHub API Error: Client error: " ++ str_int (status_code res))%string]).
Proof.
  intros Hsleep Hnet Hs H1 H3 H4 Hdoc. run_attempt Hsleep Hnet.
  decide_tests; cbn [andb orb negb]; decode Hdoc; finish_attempt.
Qed.

Lemma attempt_retryable_more attempt last w res :
  backoff_ok self attempt ->
  server (sent w) req = Answered res ->
  status_code res = 403 \/ 500 <= status_code res ->
  attempt <> max_retries self - 1 ->
  gh_attempt server self req attempt last w
  = (inr (Continue last), w ++ attempt_events self req attempt).
Proof.
  intros Hsleep Hnet Hs Hk. run_attempt Hsleep Hnet.
  decide_tests; finish_attempt.
Qed.

Lemma attempt_retryable_last attempt last w res doc :
  backoff_ok self attempt ->
  server (sent w) req = Answered res ->
  status_code res = 403 \/ 500 <= status_code res ->
  attempt = max_retries self - 1 ->
  json res = Document doc ->
  gh_attempt server self req attempt last w
  = (inl (GithubAPIError (exhausted_message (status_code res))
            (Some (status_code res)) (Some doc)),
     w ++ attempt_events self req attempt
       ++ [Log ERROR ("GitHub API Error: " ++ exhausted_message (status_code res))%string]).
Proof.
  intros Hsleep Hnet Hs Hk Hdoc. run_attempt Hsleep Hnet. unfold exhausted_message.
  decide_tests; cbn [andb orb negb]; decode Hdoc; finish_attempt.
Qed.

(** A client error whose body does not decode is not raised: the
    [JSONDecodeError] goes to the handler of [RequestException]. *)
Lemma attempt_undecodable_more attempt last w res msg :
  backoff_ok self attempt ->
  server (sent w) req = Answered res ->
  400 <= status_code res < 500 ->
  status_code res <> 403 -> status_code res <> 404 ->
  json res = Undecodable msg ->
  attempt <> max_retries self - 1 ->
  gh_attempt server self req attempt last w
  = (inr (Continue (Some (RequestException msg None))),
     w ++ attempt_events self req attempt).
Proof.
  intros Hsleep Hnet Hs H3 H4 Hdoc Hk. run_attempt Hsleep Hnet.
  decide_tests; cbn [andb orb negb]; decode Hdoc; decide_tests; finish_attempt.
Qed.

Lemma attempt_undecodable_last attempt last w res msg :
  backoff_ok self attempt ->
  server (sent w) req = Answered res ->
  400 <= status_code res -> status_code res <> 404 ->
  json res = Undecodable msg ->
  attempt = max_retries self - 1 ->
  gh_attempt server self req attempt last w
  = (inl (GithubAPIError ("Network error: " ++ msg)%string None None),
     w ++ attempt_events self req attempt
       ++ [Log ERROR ("GitHub API Error: Network error: " ++ msg)%string]).
Proof.
  intros Hsleep Hnet Hs H4 Hdoc Hk. run_attempt Hsleep Hnet.
  decide_tests; cbn [andb orb negb]; decode Hdoc; decide_tests; finish_attempt.
Qed.

Lemma attempt_timeout_more attempt last w msg :
  backoff_ok self attempt ->
  server (sent w) req = TimedOut msg ->
  attempt <> max_retries self - 1 ->
  gh_attempt server self req attempt last w
  = (inr (Continue (Some (Timeout msg))), w ++ attempt_events self req attempt).
Proof.
  intros Hsleep Hnet Hk. run_attempt Hsleep Hnet.
  decide_tests; finish_attempt.
Qed.

Lemma attempt_timeout_last attempt last w msg :
  backoff_ok self attempt ->
  server (sent w) req = TimedOut msg ->
  attempt = max_retries self - 1 ->
  gh_attempt server self req attempt last w
  = (inl (GithubAPIError
            ("Request timed out after " ++ str_int (timeout self) ++ " seconds")%string
            None None),
     w ++ attempt_events self req attempt
       ++ [Log ERROR ("GitHub API Error: Request timed out after "
                      ++ str_int (timeout self) ++ " seconds")%string]).
Proof.
  intros Hsleep Hnet Hk. run_attempt Hsleep Hnet.
  decide_tests; finish_attempt.
Qed.

Lemma attempt_errored_more attempt last w msg response :
  backoff_ok self attempt ->
  server (sent w) req = Errored msg response ->
  attempt <> max_retries self - 1 ->
  gh_attempt server self req attempt last w
  = (inr (Continue (Some (RequestException msg response))),
     w ++ attempt_events self req attempt).
Proof.
  intros Hsleep Hnet Hk. run_attempt Hsleep Hnet.
  decide_tests; finish_attempt.
Qed.

Lemma attempt_errored_last attempt last w msg response :
  backoff_ok self attempt ->
  server (sent w) req = Errored msg response ->
  attempt = max_retries self - 1 ->
  gh_attempt server self req attempt last w
  = (inl (GithubAPIError ("Network error: " ++ msg)%string
            (option_map status_code response) None),
     w ++ attempt_events self req attempt
       ++ [Log ERROR ("GitHub API Error: Network error: " ++ msg)%string]).
Proof.
  intros Hsleep Hnet Hk. run_attempt Hsleep Hnet.
  decide_tests; finish_attempt.
Qed.

(** When the backoff is a length [time.sleep] refuses, the attempt logs
    its warning and the [ValueError] or [OverflowError] of the sleep
    leaves the loop; the request is not sent. *)
Lemma attempt_sleep_refused attempt last w :
  0 < attempt ->
  can_sleep (retry_delay self * 2 ^ (attempt - 1)) = false ->
  exists e,
    ((exists msg, e = ValueError msg) \/ (exists msg, e = OverflowError msg))
    /\ gh_attempt server self req attempt last w
       = (inl e, w ++ [Log WARNING (retry_warning self attempt)]).
Proof.
  intros Hpos Hno. unfold gh_attempt, try_except, bind.
  destruct (Z.ltb_spec 0 attempt) as [_|Hle]; [|lia]. cbv zeta.
  unfold logger_warning, emit.
  destruct (time_sleep_refused (retry_delay self * 2 ^ (attempt - 1))
              (w ++ [Log WARNING (retry_warning self attempt)]) Hno) as [msg [H|H]];
    unfold retry_warning in H; rewrite H; eexists; (split; [|reflexivity]);
    [left|right]; now exists msg.
Qed.

End Attempt.

(** ** Every attempt *)

Lemma delays_backoff (self : github) (attempt : Z) :
  delays_ok self -> attempt < max_retries self -> backoff_ok self attempt.
Proof. intros Hd Hlt Hpos. apply Hd. lia. Qed.

Section Outcomes.

Variable server : nat -> Request -> NetOutcome.
Variable self : github.
Variable req : Request.

(** The four ways an attempt ends: it returns the answer, it goes on to
    the next attempt, it raises the error of its outcome, or its sleep is
    refused before the request is sent. *)
Lemma attempt_outcome attempt last w :
  (exists res,
     server (sent w) req = Answered res
     /\ (status_code res < 400 \/ status_code res = 404)
     /\ gh_attempt server self req attempt last w
        = (inr (Return res), w ++ attempt_events self req attempt))
  \/ (attempt <> max_retries self - 1
      /\ retried (server (sent w) req)
      /\ exists last',
           gh_attempt server self req attempt last w
           = (inr (Continue last'), w ++ attempt_events self req attempt))
  \/ (exists e,
        api_failure self attempt (server (sent w) req) e
        /\ gh_attempt server self req attempt last w
           = (inl e, w ++ attempt_events self req attempt
                       ++ [Log ERROR ("GitHub API Error: " ++ str_exn e)%string]))
  \/ (0 < attempt
      /\ can_sleep (retry_delay self * 2 ^ (attempt - 1)) = false
      /\ exists e,
           ((exists msg, e = ValueError msg) \/ (exists msg, e = OverflowError msg))
           /\ gh_attempt server self req attempt last w
              = (inl e, w ++ [Log WARNING (retry_warning self attempt)])).
Proof.
  assert (Hsleep : backoff_ok self attempt
                   \/ (0 < attempt
                       /\ can_sleep (retry_delay self * 2 ^ (attempt - 1)) = false)).
  { unfold backoff_ok.
    destruct (can_sleep (retry_delay self * 2 ^ (attempt - 1))) eqn:Hc;
      [now left|].
    destruct (Z_lt_le_dec 0 attempt); [now right | left; lia]. }
  destruct Hsleep as [Hok|[Hpos Hno]].
  2:{ right; right; right. split; [exact Hpos|]. split; [exact Hno|].
      destruct (attempt_sleep_refused server self req attempt last w Hpos Hno)
        as (e & He & Hrun).
      now exists e. }
  destruct (server (sent w) req) as [res|msg|msg response] eqn:Hnet.
  - assert (Hcases : (status_code res < 400 \/ status_code res = 404)
                     \/ (400 <= status_code res < 500
                         /\ status_code res <> 403 /\ status_code res <> 404)
                     \/ (status_code res = 403 \/ 500 <= status_code res)) by lia.
    destruct Hcases as [Hs|[(Hs & H3 & H4)|Hs]].
    + left. exists res. repeat split; [exact Hs|]. now apply attempt_returns.
    + destruct (json res) as [doc|msg] eqn:Hdoc.
      * right; right; left.
        destruct (Z.eq_dec (status_code res) 401) as [E|E].
        -- eexists. split; [now apply authentication_failed with (doc := doc)|].
           rewrite (attempt_unauthorized server self req attempt last w res doc);
             auto.
        -- eexists. split; [now apply client_error with (doc := doc)|].
           rewrite (attempt_client_error server self req attempt last w res doc);
             auto.
      * destruct (Z.eq_dec attempt (max_retries self - 1)) as [Hk|Hk].
        -- right; right; left. eexists.
           split; [apply undecodable_body with (msg := msg); auto; lia|].
           rewrite (attempt_undecodable_last server self req attempt last w res msg);
             auto; lia.
        -- right; left. repeat split; [exact Hk | |].
           ++ right; right. repeat split; try lia. now exists msg.
           ++ exists (Some (RequestException msg None)).
              apply attempt_undecodable_more with (res := res); auto.
    + destruct (Z.eq_dec attempt (max_retries self - 1)) as [Hk|Hk].
      * right; right; left. destruct (json res) as [doc|msg] eqn:Hdoc.
        -- eexists. split; [now apply retries_exhausted with (doc := doc)|].
           rewrite (attempt_retryable_last server self req attempt last w res doc);
             auto.
        -- eexists. split; [apply undecodable_body with (msg := msg); auto; lia|].
           rewrite (attempt_undecodable_last server self req attempt last w res msg);
             auto; lia.
      * right; left. repeat split; [exact Hk | |].
        -- destruct Hs; [now left | right; now left].
        -- exists last. now apply attempt_retryable_more with res.
  - destruct (Z.eq_dec attempt (max_retries self - 1)) as [Hk|Hk].
    + right; right; left. eexists. split; [now apply timed_out|].
      rewrite (attempt_timeout_last server self req attempt last w msg); auto.
    + right; left. repeat split; [exact Hk|].
      exists (Some (Timeout msg)). now apply attempt_timeout_more.
  - destruct (Z.eq_dec attempt (max_retries self - 1)) as [Hk|Hk].
    + right; right; left. eexists. split; [now apply network_error|].
      rewrite (attempt_errored_last server self req attempt last w msg response); auto.
    + right; left. repeat split; [exact Hk|].
      exists (Some (RequestException msg response)). now apply attempt_errored_more.
Qed.

Lemma attempt_retried attempt last w :
  backoff_ok self attempt ->
  retried (server (sent w) req) ->
  attempt <> max_retries self - 1 ->
  exists last',
    gh_attempt server self req attempt last w
    = (inr (Continue last'), w ++ attempt_events self req attempt).
Proof.
  intros Hok Hr Hk.
  destruct (server (sent w) req) as [res|msg|msg response] eqn:Hnet.
  - destruct Hr as [Hs|[Hs|(Hs & H4 & msg & Hdoc)]].
    + exists last. apply attempt_retryable_more with res; auto.
    + exists last. apply attempt_retryable_more with res; auto.
    + destruct (Z.eq_dec (status_code res) 403) as [E|E].
      * exists last. apply attempt_retryable_more with res; auto.
      * exists (Some (RequestException msg None)).
        apply attempt_undecodable_more with (res := res); auto.
  - exists (Some (Timeout msg)). now apply attempt_timeout_more.
  - exists (Some (RequestException msg response)). now apply attempt_errored_more.
Qed.

End Outcomes.

(** ** The loop *)

Section Loop.

Variable server : nat -> Request -> NetOutcome.
Variable self : github.
Variable req : Request.

Lemma attempts_events_S (k m : nat) :
  attempts_events self req k (S m)
  = attempt_events self req (Z.of_nat k) ++ attempts_events self req (S k) m.
Proof. reflexivity. Qed.

Lemma attempts_events_snoc (k m : nat) :
  attempts_events self req k (S m)
  = attempts_events self req k m ++ attempt_events self req (Z.of_nat (k + m)).
Proof.
  unfold attempts_events. rewrite seq_S, !map_app, concat_app. simpl.
  now rewrite app_nil_r.
Qed.

Lemma requests_of_attempts (k m : nat) :
  requests_of (attempts_events self req k m) = repeat req m.
Proof.
  revert k. induction m as [|m IH]; intros k; [reflexivity|].
  rewrite attempts_events_S, requests_of_app, requests_of_attempt, IH.
  reflexivity.
Qed.

Lemma sent_attempts (k m : nat) (w : World) :
  sent (w ++ attempts_events self req k m) = (sent w + m)%nat.
Proof.
  unfold sent. now rewrite requests_of_app, requests_of_attempts, length_app, repeat_length.
Qed.

Lemma sleeps_of_attempt (attempt : Z) :
  sleeps_of (attempt_events self req attempt)
  = if 0 <? attempt then [retry_delay self * 2 ^ (attempt - 1)] else [].
Proof.
  unfold attempt_events, retry_prelude. now destruct (0 <? attempt).
Qed.

Lemma sleeps_of_retries (k m : nat) :
  sleeps_of (attempts_events self req (S k) m)
  = map (fun attempt => retry_delay self * 2 ^ (attempt - 1))
        (map Z.of_nat (seq (S k) m)).
Proof.
  revert k. induction m as [|m IH]; intros k; [reflexivity|].
  rewrite attempts_events_S, sleeps_of_app, sleeps_of_attempt, IH.
  destruct (Z.ltb_spec 0 (Z.of_nat (S k))); [reflexivity|lia].
Qed.

Lemma sleeps_of_attempts (m : nat) :
  sleeps_of (attempts_events self req 0 m)
  = map (fun attempt => retry_delay self * 2 ^ (attempt - 1))
        (map Z.of_nat (seq 1 (m - 1))).
Proof.
  destruct m as [|m]; [reflexivity|].
  rewrite attempts_events_S, sleeps_of_app, sleeps_of_attempt, sleeps_of_retries.
  simpl. now rewrite Nat.sub_0_r.
Qed.

Lemma gh_loop_cons attempt rest last w :
  gh_loop server self req (attempt :: rest) last w
  = bind (gh_attempt server self req attempt last)
      (fun flow => match flow with
                   | Return res => ret res
                   | Continue last' => gh_loop server self req rest last'
                   end) w.
Proof. reflexivity. Qed.

(** Attempts that are retried and are not the last leave the loop at the
    next attempt, having each sent the request once. *)
Lemma gh_loop_skip (m : nat) : forall (k : nat) (rest : list Z) last w,
  (forall i, (i < m)%nat -> backoff_ok self (Z.of_nat (k + i))) ->
  Z.of_nat (k + m) < max_retries self ->
  (forall i, (i < m)%nat -> retried (server (sent w + i)%nat req)) ->
  exists last',
    gh_loop server self req (map Z.of_nat (seq k m) ++ rest) last w
    = gh_loop server self req rest last' (w ++ attempts_events self req k m).
Proof.
  induction m as [|m IH]; intros k rest last w Hd Hk Hnet.
  - exists last. unfold attempts_events. simpl. now rewrite app_nil_r.
  - destruct (attempt_retried server self req (Z.of_nat k) last w) as [last1 H1].
    + specialize (Hd 0%nat). rewrite Nat.add_0_r in Hd. apply Hd. lia.
    + specialize (Hnet 0%nat). rewrite Nat.add_0_r in Hnet. apply Hnet. lia.
    + lia.
    + destruct (IH (S k) rest last1 (w ++ attempt_events self req (Z.of_nat k)))
        as [last2 H2].
      * intros i Hi. replace (S k + i)%nat with (k + S i)%nat by lia.
        apply Hd. lia.
      * lia.
      * intros i Hi. rewrite sent_attempt.
        replace (S (sent w) + i)%nat with (sent w + S i)%nat by lia.
        apply Hnet. lia.
      * exists last2. cbn [seq map app]. rewrite gh_loop_cons.
        erewrite bind_value by exact H1. cbv beta iota.
        rewrite H2, attempts_events_S. now rewrite <- app_assoc.
Qed.

(** Whatever the network and the sleeps do, an attempt sends nothing but
    its request, at most once, and hands back a response only when its
    status is 404 or below 400. *)
Lemma gh_attempt_inv attempt last w :
  exists new,
    snd (gh_attempt server self req attempt last w) = w ++ new
    /\ Forall (eq req) (requests_of new)
    /\ forall res,
         fst (gh_attempt server self req attempt last w) = inr (Return res) ->
         status_code res = 404 \/ status_code res < 400.
Proof.
  destruct (attempt_outcome server self req attempt last w)
    as [(res & _ & Hs & ->)|[(_ & _ & last' & ->)|[(e & _ & ->)|(_ & _ & e & _ & ->)]]];
    eexists; cbn [fst snd]; (split; [reflexivity|]); split.
  all: try (rewrite ?requests_of_app, ?requests_of_attempt; simpl;
            now repeat constructor).
  all: try discriminate.
  intros r [= <-]. lia.
Qed.

(** The same for the whole loop: only [req] is ever sent, and a returned
    response has status 404 or below 400. *)
Lemma gh_loop_inv (attempts : list Z) : forall last w,
  exists new,
    snd (gh_loop server self req attempts last w) = w ++ new
    /\ Forall (eq req) (requests_of new)
    /\ forall res,
         fst (gh_loop server self req attempts last w) = inr res ->
         status_code res = 404 \/ status_code res < 400.
Proof.
  induction attempts as [|attempt rest IH]; intros last w.
  - cbn [gh_loop]. rewrite raise_GithubAPIError_run. eexists. cbn [fst snd].
    repeat split; [constructor | discriminate].
  - rewrite gh_loop_cons. unfold bind.
    destruct (gh_attempt_inv attempt last w) as (new1 & Hw & Hreq & Hres).
    destruct (gh_attempt server self req attempt last w) as [[e|[res|last']] w1];
      cbn [fst snd] in *; subst w1.
    + exists new1. repeat split; [exact Hreq | discriminate].
    + exists new1. unfold ret. cbn [fst snd]. repeat split; [exact Hreq|].
      intros r [= <-]. now apply Hres.
    + destruct (IH last' (w ++ new1)) as (new & Hw & Hnew & Hret).
      exists (new1 ++ new). repeat split.
      * rewrite Hw. now rewrite <- app_assoc.
      * rewrite requests_of_app. apply Forall_app. now split.
      * exact Hret.
Qed.

End Loop.

(** ** gh_request *)

Lemma range_seq (n : Z) : range n = map Z.of_nat (seq 0 (Z.to_nat n)).
Proof. reflexivity. Qed.

Lemma seq_split (j m : nat) :
  (j < m)%nat -> seq 0 m = seq 0 j ++ j :: seq (S j) (m - S j).
Proof.
  intros H. replace m with (j + S (m - S j))%nat at 1 by lia.
  now rewrite seq_app.
Qed.

(** The settings of [__init__] give the sleeps 1 and 2. *)
Lemma fresh_delays_ok (auth : string) (org : option string) :
  delays_ok (__init__ auth org).
Proof.
  intros attempt Ha. simpl in Ha.
  assert (attempt = 1 \/ attempt = 2) as [-> | ->] by lia; reflexivity.
Qed.

Section Wrapper.

Variable server : nat -> Request -> NetOutcome.
Variable self : github.
Variables path method : string.
Variable data : list (string * JSON).

Let req : Request := gh_request_args self path method data.
Let n : nat := Z.to_nat (max_retries self).

(** A call whose attempts [0], ..., [j - 1] are all retried stands at
    attempt [j], with one request sent per earlier attempt. *)
Lemma gh_request_reaches (j : nat) (w : World) :
  (forall i, (i < j)%nat -> backoff_ok self (Z.of_nat i)) ->
  Z.of_nat j < max_retries self ->
  (forall i, (i < j)%nat -> retried (server (sent w + i)%nat req)) ->
  exists last,
    gh_request server self path method data w
    = gh_loop server self req
        (Z.of_nat j :: map Z.of_nat (seq (S j) (n - S j))) last
        (w ++ attempts_events self req 0 j).
Proof.
  intros Hd Hj Hnet. unfold gh_request. fold req. rewrite range_seq. fold n.
  rewrite (seq_split j n) by (subst n; lia).
  rewrite map_app. cbn [map].
  destruct (gh_loop_skip server self req j 0
              (Z.of_nat j :: map Z.of_nat (seq (S j) (n - S j))) None w)
    as [last H]; [exact Hd | simpl; lia | exact Hnet |].
  exists last. exact H.
Qed.

(** When every attempt before the last is retried, the call comes down to
    its last attempt. *)
Lemma gh_request_last_attempt (w : World) :
  delays_ok self ->
  0 < max_retries self ->
  (forall i, (i < n - 1)%nat -> retried (server (sent w + i)%nat req)) ->
  exists last,
    gh_request server self path method data w
    = gh_loop server self req [max_retries self - 1] last
        (w ++ attempts_events self req 0 (n - 1)).
Proof.
  intros Hd Hpos Hnet.
  destruct (gh_request_reaches (n - 1) w) as [last H];
    [intros i Hi; apply delays_backoff; [exact Hd | subst n; lia]
    | subst n; lia | exact Hnet |].
  exists last. rewrite H.
  replace (n - S (n - 1))%nat with 0%nat by lia.
  replace (Z.of_nat (n - 1)) with (max_retries self - 1) by (subst n; lia).
  reflexivity.
Qed.

Lemma attempts_events_last :
  0 < max_retries self ->
  attempts_events self req 0 (n - 1) ++ attempt_events self req (max_retries self - 1)
  = attempts_events self req 0 n.
Proof.
  intros Hpos. replace n with (S (n - 1)) at 2 by (subst n; lia).
  rewrite attempts_events_snoc.
  now replace (Z.of_nat (0 + (n - 1))) with (max_retries self - 1) by (subst n; lia).
Qed.

Lemma gh_request_inv (w : World) :
  exists new,
    snd (gh_request server self path method data w) = w ++ new
    /\ Forall (eq req) (requests_of new)
    /\ forall res,
         fst (gh_request server self path method data w) = inr res ->
         status_code res = 404 \/ status_code res < 400.
Proof. apply gh_loop_inv. Qed.

(** A first answer with a status below 400, or 404, is returned at once. *)
Lemma gh_request_first_returned (w : World) (res : Response) :
  0 < max_retries self ->
  server (sent w) req = Answered res ->
  status_code res < 400 \/ status_code res = 404 ->
  gh_request server self path method data w = (inr res, w ++ [Http req]).
Proof.
  intros Hpos Hnet Hs.
  destruct (gh_request_reaches 0 w) as [last H];
    [intros i Hi; lia | lia | intros i Hi; lia |].
  rewrite H, gh_loop_cons. unfold attempts_events. cbn [seq map List.concat].
  rewrite app_nil_r.
  erewrite bind_value
    by (apply attempt_returns with (res := res);
        [intros Hlt; lia | exact Hnet | exact Hs]).
  reflexivity.
Qed.

(** C2: when the first attempt of a call is answered with status 404, the
    call raises nothing and returns that very response, having sent the
    request once and neither slept nor logged. *)
Theorem gh_request_404_returned (w : World) (res : Response) :
  0 < max_retries self ->
  server (sent w) req = Answered res ->
  status_code res = 404 ->
  gh_request server self path method data w = (inr res, w ++ [Http req]).
Proof.
  intros Hpos Hnet Hs. apply gh_request_first_returned; auto.
Qed.

(** C4: when every attempt of a call times out, the call raises the
    timed-out error; when all attempts but the last time out and the last
    is answered with a status that is returned (below 400, or 404), the
    call returns that response.  The backoffs are lengths [time.sleep]
    accepts. *)
Theorem gh_request_timeouts (w : World) :
  delays_ok self ->
  0 < max_retries self ->
  (forall i, (i < n - 1)%nat -> exists msg, server (sent w + i)%nat req = TimedOut msg) ->
  (forall msg,
     server (sent w + (n - 1))%nat req = TimedOut msg ->
     gh_request server self path method data w
     = (inl (GithubAPIError
               ("Request timed out after " ++ str_int (timeout self) ++ " seconds")%string
               None None),
        w ++ attempts_events self req 0 n
          ++ [Log ERROR ("GitHub API Error: Request timed out after "
                         ++ str_int (timeout self) ++ " seconds")%string]))
  /\ (forall res,
        server (sent w + (n - 1))%nat req = Answered res ->
        status_code res < 400 \/ status_code res = 404 ->
        gh_request server self path method data w
        = (inr res, w ++ attempts_events self req 0 n)).
Proof.
  intros Hd Hpos Hprev.
  assert (Hok : backoff_ok self (max_retries self - 1))
    by (apply delays_backoff; [exact Hd | lia]).
  destruct (gh_request_last_attempt w Hd Hpos) as [last H].
  { intros i Hi. destruct (Hprev i Hi) as [msg ->]. exact I. }
  split.
  - intros msg Hlast. rewrite H, gh_loop_cons.
    erewrite bind_raised.
    2:{ apply attempt_timeout_last with (msg := msg); [exact Hok| |reflexivity].
        now rewrite sent_attempts. }
    rewrite <- attempts_events_last by exact Hpos.
    now rewrite <- !app_assoc.
  - intros res Hlast Hs. rewrite H, gh_loop_cons.
    erewrite bind_value.
    2:{ apply attempt_returns with (res := res); [exact Hok| |exact Hs].
        now rewrite sent_attempts. }
    rewrite <- attempts_events_last by exact Hpos.
    unfold ret. now rewrite <- !app_assoc.
Qed.

End Wrapper.

(** C10: a response that [gh_request] returns has status 404 or a status
    below 400; no response with status 401, 403, another status from 400
    to 499 or a status from 500 up comes back as a value. *)
Theorem gh_request_returned_status (server : nat -> Request -> NetOutcome)
    (self : github) (path method : string) (data : list (string * JSON))
    (w w' : World) (res : Response) :
  gh_request server self path method data w = (inr res, w') ->
  (status_code res = 404 \/ status_code res < 400)
  /\ ~ (400 <= status_code res /\ status_code res <> 404).
Proof.
  intros H.
  destruct (gh_request_inv server self path method data w) as (new & _ & _ & Hres).
  rewrite H in Hres. specialize (Hres res eq_refl). lia.
Qed.

(** ** The endpoint helpers *)

Lemma requests_of_snoc_print (w : World) (line : string) :
  requests_of (w ++ [Print line]) = requests_of w.
Proof. rewrite requests_of_app. simpl. now rewrite app_nil_r. Qed.

(** C5: every request that [invite_user_org] sends for org acme, user 42,
    no teams and the default role is the POST to [/orgs/acme/invitations]
    whose payload is the JSON object with [invitee_id] 42, [role]
    [direct_member] and empty [team_ids]; when the API answers it with
    status 201, it is sent exactly once and the call returns that
    response unchanged. *)
Theorem invite_user_org_acme (server : nat -> Request -> NetOutcome)
    (self : github) (w : World) :
  let out := invite_user_org server self "acme" 42 [] "direct_member" w in
  req_data (acme_invitation self)
  = Some (json_dumps (JDict [("invitee_id", JInt 42); ("role", JStr "direct_member");
                             ("team_ids", JList [])]))
  /\ (exists new,
        snd out = w ++ new /\ Forall (eq (acme_invitation self)) (requests_of new))
  /\ (forall res,
        0 < max_retries self ->
        server (sent w) (acme_invitation self) = Answered res ->
        status_code res = 201 ->
        out = (inr res, w ++ [Http (acme_invitation self)])).
Proof.
  intros out. split; [reflexivity|]. split.
  - destruct (gh_request_inv server self "/orgs/acme/invitations" "POST"
                [("invitee_id", JInt 42); ("role", JStr "direct_member");
                 ("team_ids", JList [])] w) as (new & Hw & Hreq & _).
    exists new. split; [|exact Hreq].
    subst out. unfold invite_user_org, bind.
    destruct (gh_request server self _ _ _ w) as [[e|res] w1]; exact Hw.
  - intros res Hpos Hnet Hs. subst out. unfold invite_user_org.
    erewrite bind_value; [reflexivity|].
    apply gh_request_first_returned; [exact Hpos | exact Hnet | lia].
Qed.

(** C9: every request [gh_request] sends carries the three headers
    [Accept: application/vnd.github+json], [Authorization: Bearer <token>]
    and [X-GitHub-Api-Version], and has no payload at all when the call
    is made with the empty dict; so does every request of the four
    endpoint helpers. *)
Theorem requests_carry_api_headers (server : nat -> Request -> NetOutcome)
    (self : github) (w : World) :
  (forall path method data,
     exists new,
       snd (gh_request server self path method data w) = w ++ new
       /\ Forall (fun q => req_headers q = api_headers self
                           /\ req_data q = match data with
                                           | [] => None
                                           | _ => Some (json_dumps (JDict data))
                                           end) (requests_of new))
  /\ (forall org user teams role,
        exists new,
          snd (invite_user_org server self org user teams role w) = w ++ new
          /\ Forall (fun q => req_headers q = api_headers self) (requests_of new))
  /\ (forall user,
        exists new,
          snd (get_user_id server self user w) = w ++ new
          /\ Forall (fun q => req_headers q = api_headers self /\ req_data q = None)
                    (requests_of new))
  /\ (forall org,
        exists new,
          snd (list_teams server self org w) = w ++ new
          /\ Forall (fun q => req_headers q = api_headers self /\ req_data q = None)
                    (requests_of new))
  /\ (forall org user_id,
        exists new,
          snd (is_user_member_of_org server self org user_id w) = w ++ new
          /\ Forall (fun q => req_headers q = api_headers self /\ req_data q = None)
                    (requests_of new)).
Proof.
  assert (Hgh : forall path method data,
     exists new,
       snd (gh_request server self path method data w) = w ++ new
       /\ Forall (fun q => req_headers q = api_headers self
                           /\ req_data q = match data with
                                           | [] => None
                                           | _ => Some (json_dumps (JDict data))
                                           end) (requests_of new)).
  { intros path method data.
    destruct (gh_request_inv server self path method data w) as (new & Hw & Hreq & _).
    exists new. split; [exact Hw|].
    eapply Forall_impl; [|exact Hreq]. intros q <-. split; reflexivity. }
  split; [exact Hgh|]. repeat split.
  - intros org user teams role. unfold invite_user_org, bind.
    destruct (Hgh ("/orgs/" ++ org ++ "/invitations")%string "POST"
                [("invitee_id", JInt user); ("role", JStr role);
                 ("team_ids", JList teams)]) as (new & Hw & Hreq).
    destruct (gh_request server self _ _ _ w) as [[e|res] w1];
      cbn [fst snd] in *; exists new; (split; [exact Hw|]);
      (eapply Forall_impl; [|exact Hreq]); now intros q [Hh _].
  - intros user. unfold get_user_id, bind.
    destruct (Hgh ("/users/" ++ user)%string "GET" []) as (new & Hw & Hreq).
    destruct (gh_request server self _ _ _ w) as [[e|res] w1];
      cbn [fst snd] in *; exists new; [now split|].
    destruct (status_code res =? 200); [|now split].
    unfold res_json.
    destruct (json res) as [doc|msg]; [|now split].
    unfold ret.
    destruct (getitem doc "id" w1) as [[e|id] w2] eqn:Hget;
      assert (w2 = w1)
        by (unfold getitem in Hget; destruct doc; try (now inversion Hget);
            destruct (lookup fields "id"); now inversion Hget);
      subst w2; now split.
  - intros org. unfold list_teams, bind.
    destruct (Hgh ("/orgs/" ++ org ++ "/teams")%string "GET" []) as (new & Hw & Hreq).
    destruct (gh_request server self _ _ _ w) as [[e|res] w1];
      cbn [fst snd] in *; [exists new; now split|].
    destruct (status_code res =? 200).
    + exists new. now split.
    + exists (new ++ [Print "Something unexpected happened"]). cbn [print emit snd].
      rewrite Hw, <- app_assoc, requests_of_snoc_print. now split.
  - intros org user_id. unfold is_user_member_of_org, bind.
    destruct (Hgh ("/orgs/" ++ org ++ "/members/" ++ str_int user_id)%string "GET" [])
      as (new & Hw & Hreq).
    destruct (gh_request server self _ _ _ w) as [[e|res] w1];
      cbn [fst snd] in *; exists new; now split.
Qed.

(** Errors of [gh_request] pass through a helper untouched. *)
Lemma bind_propagates {A B} (m : M A) (k : A -> M B) (w : World) (e : exn) :
  fst (m w) = inl e -> bind m k w = (inl e, snd (m w)).
Proof. unfold bind. destruct (m w) as [[e'|a] w1]; cbn; now intros [= ->]. Qed.

Lemma bind_returned {A B} (m : M A) (k : A -> M B) (w : World) (a : A) :
  fst (m w) = inr a -> bind m k w = k a (snd (m w)).
Proof. unfold bind. destruct (m w) as [[e'|a'] w1]; cbn; now intros [= ->]. Qed.

Section Helpers.

Variable server : nat -> Request -> NetOutcome.
Variable self : github.

(** C6, as the code has it: [get_user_id] sends GET [/users/{username}]
    through [gh_request].  When [gh_request] returns a response with
    status 200 it returns the [id] member of the JSON body; when
    [gh_request] returns a response with any other status, which is then
    404 or below 400, it returns [None], in particular for a first answer
    404; when [gh_request] raises (a 401, another client error, a 403 or
    a status from 500 up on the last attempt, a timeout), that error
    reaches the caller. *)
Theorem get_user_id_result (user : string) (w : World) :
  let req := gh_request_args self ("/users/" ++ user)%string "GET" [] in
  let out := gh_request server self ("/users/" ++ user)%string "GET" [] w in
  (forall res fields id,
     fst out = inr res -> status_code res = 200 ->
     json res = JDict fields -> lookup fields "id" = Some id ->
     get_user_id server self user w = (inr (Some id), snd out))
  /\ (forall res,
        fst out = inr res -> status_code res <> 200 ->
        (status_code res = 404 \/ status_code res < 400)
        /\ get_user_id server self user w = (inr None, snd out))
  /\ (forall e, fst out = inl e -> get_user_id server self user w = (inl e, snd out))
  /\ (exists new, snd out = w ++ new /\ Forall (eq req) (requests_of new))
  /\ (forall res,
        0 < max_retries self -> server (sent w) req = Answered res ->
        status_code res = 404 ->
        get_user_id server self user w = (inr None, w ++ [Http req])).
Proof.
  intros req out.
  destruct (gh_request_inv server self ("/users/" ++ user)%string "GET" [] w)
    as (new & Hw & Hreq & Hres).
  split; [|split; [|split; [|split]]].
  - intros res fields id Hout Hs Hj Hid. unfold get_user_id.
    rewrite (bind_returned _ _ _ _ Hout). fold out.
    rewrite Hs. cbn [Z.eqb Pos.eqb]. unfold bind, res_json. rewrite Hj.
    unfold ret. cbn [getitem]. rewrite Hid. reflexivity.
  - intros res Hout Hs. split; [now apply Hres|].
    unfold get_user_id. rewrite (bind_returned _ _ _ _ Hout). fold out.
    destruct (Z.eqb_spec (status_code res) 200); [contradiction|reflexivity].
  - intros e Hout. unfold get_user_id. now rewrite (bind_propagates _ _ _ _ Hout).
  - now exists new.
  - intros res Hpos Hnet Hs. unfold get_user_id.
    erewrite bind_value
      by (apply gh_request_first_returned; [exact Hpos | exact Hnet | lia]).
    now rewrite Hs.
Qed.

(** C7, as the code has it: [is_user_member_of_org] sends GET
    [/orgs/{org}/members/{user_id}] through [gh_request].  When
    [gh_request] returns a response, it returns true if and only if the
    status of that response is 204, so false for 404 and for every other
    status that [gh_request] returns; when [gh_request] raises, that
    error reaches the caller. *)
Theorem is_user_member_of_org_result (org : string) (user_id : Z) (w : World) :
  let path := ("/orgs/" ++ org ++ "/members/" ++ str_int user_id)%string in
  let req := gh_request_args self path "GET" [] in
  let out := gh_request server self path "GET" [] w in
  (forall res,
     fst out = inr res ->
     exists member,
       is_user_member_of_org server self org user_id w = (inr member, snd out)
       /\ (member = true <-> status_code res = 204))
  /\ (forall e,
        fst out = inl e ->
        is_user_member_of_org server self org user_id w = (inl e, snd out))
  /\ (exists new, snd out = w ++ new /\ Forall (eq req) (requests_of new))
  /\ (forall res,
        0 < max_retries self -> server (sent w) req = Answered res ->
        status_code res = 404 ->
        is_user_member_of_org server self org user_id w = (inr false, w ++ [Http req])).
Proof.
  intros path req out.
  destruct (gh_request_inv server self path "GET" [] w) as (new & Hw & Hreq & _).
  split; [|split; [|split]].
  - intros res Hout. exists (status_code res =? 204). split.
    + unfold is_user_member_of_org. now rewrite (bind_returned _ _ _ _ Hout).
    + apply Z.eqb_eq.
  - intros e Hout. unfold is_user_member_of_org.
    now rewrite (bind_propagates _ _ _ _ Hout).
  - now exists new.
  - intros res Hpos Hnet Hs. unfold is_user_member_of_org.
    erewrite bind_value
      by (apply gh_request_first_returned; [exact Hpos | exact Hnet | lia]).
    now rewrite Hs.
Qed.

(** At status 200 [list_teams] prints no team: [len(res)] raises. *)
Lemma list_teams_status_200 (org : string) (w : World) (res : Response) :
  let out := gh_request server self ("/orgs/" ++ org ++ "/teams")%string "GET" [] w in
  fst out = inr res -> status_code res = 200 ->
  list_teams server self org w
  = (inl (TypeError "object of type 'Response' has no len()"), snd out).
Proof.
  intros out Hout Hs. unfold list_teams.
  rewrite (bind_returned _ _ _ _ Hout). fold out. now rewrite Hs.
Qed.

(** C8, as the code has it: [list_teams] sends GET [/orgs/{org}/teams]
    through [gh_request].  When [gh_request] returns a response with a
    status other than 200, it prints the generic failure line and raises
    nothing; when [gh_request] raises, that [GithubAPIError] reaches the
    caller and nothing is printed. *)
Theorem list_teams_result (org : string) (w : World) :
  let path := ("/orgs/" ++ org ++ "/teams")%string in
  let req := gh_request_args self path "GET" [] in
  let out := gh_request server self path "GET" [] w in
  (forall res,
     fst out = inr res -> status_code res <> 200 ->
     list_teams server self org w
     = (inr tt, snd out ++ [Print "Something unexpected happened"]))
  /\ (forall e, fst out = inl e -> list_teams server self org w = (inl e, snd out))
  /\ (exists new, snd out = w ++ new /\ Forall (eq req) (requests_of new)).
Proof.
  intros path req out.
  destruct (gh_request_inv server self path "GET" [] w) as (new & Hw & Hreq & _).
  split; [|split].
  - intros res Hout Hs. unfold list_teams.
    rewrite (bind_returned _ _ _ _ Hout). fold out.
    destruct (Z.eqb_spec (status_code res) 200); [contradiction|reflexivity].
  - intros e Hout. unfold list_teams. now rewrite (bind_propagates _ _ _ _ Hout).
  - now exists new.
Qed.

End Helpers.

(** ** The theorems at concrete runs *)

Lemma gh_request_404_returned_witness :
  gh_request (answering 404 not_found) client "/users/ghost" "GET" [] []
  = (inr (mkResponse 404 not_found),
     [Http (gh_request_args client "/users/ghost" "GET" [])]).
Proof.
  apply (gh_request_404_returned (answering 404 not_found) client "/users/ghost" "GET"
           [] [] (mkResponse 404 not_found)); reflexivity.
Defined.

(** Three timeouts, and two timeouts followed by a 200. *)
Lemma gh_request_timeouts_witness :
  fst (gh_request unreachable client "/user" "GET" [] [])
  = inl (GithubAPIError "Request timed out after 30 seconds" None None)
  /\ fst (gh_request (scripted [TimedOut "Read timed out."; TimedOut "Read timed out."]
                        (Answered (mkResponse 200 octocat)))
            client "/user" "GET" [] [])
     = inr (mkResponse 200 octocat).
Proof.
  split.
  - destruct (gh_request_timeouts unreachable client "/user" "GET" [] []) as [H _].
    + apply fresh_delays_ok.
    + reflexivity.
    + intros i Hi. now exists "Read timed out.".
    + now rewrite (H "Read timed out." eq_refl).
  - destruct (gh_request_timeouts
                (scripted [TimedOut "Read timed out."; TimedOut "Read timed out."]
                   (Answered (mkResponse 200 octocat)))
                client "/user" "GET" [] []) as [_ H].
    + apply fresh_delays_ok.
    + reflexivity.
    + intros i Hi. exists "Read timed out.".
      destruct i as [|[|i]]; [reflexivity | reflexivity | simpl in Hi; lia].
    + rewrite (H (mkResponse 200 octocat) eq_refl); [reflexivity | simpl; lia].
Defined.

Lemma invite_user_org_acme_witness :
  invite_user_org (answering 201 JNull) client "acme" 42 [] "direct_member" []
  = (inr (mkResponse 201 JNull), [Http (acme_invitation client)]).
Proof.
  destruct (invite_user_org_acme (answering 201 JNull) client []) as (_ & _ & H).
  exact (H (mkResponse 201 JNull) eq_refl eq_refl eq_refl).
Defined.

Lemma gh_request_returned_status_witness :
  (status_code (mkResponse 204 JNull) = 404 \/ status_code (mkResponse 204 JNull) < 400)
  /\ ~ (400 <= status_code (mkResponse 204 JNull)
        /\ status_code (mkResponse 204 JNull) <> 404).
Proof.
  apply (gh_request_returned_status (answering 204 JNull) client "/orgs/acme/members/42"
           "GET" [] [] [Http (gh_request_args client "/orgs/acme/members/42" "GET" [])]
           (mkResponse 204 JNull)).
  reflexivity.
Defined.

(** An existing user, and a 404 for an unknown one. *)
Lemma get_user_id_result_witness :
  get_user_id (answering 200 octocat) client "octocat" []
  = (inr (Some (JInt 583231)), [Http (gh_request_args client "/users/octocat" "GET" [])])
  /\ get_user_id (answering 404 not_found) client "ghost" []
     = (inr None, [Http (gh_request_args client "/users/ghost" "GET" [])]).
Proof.
  split.
  - destruct (get_user_id_result (answering 200 octocat) client "octocat" [])
      as (H & _).
    exact (H (mkResponse 200 octocat) _ (JInt 583231) eq_refl eq_refl eq_refl eq_refl).
  - destruct (get_user_id_result (answering 404 not_found) client "ghost" [])
      as (_ & _ & _ & _ & H).
    exact (H (mkResponse 404 not_found) eq_refl eq_refl eq_refl).
Defined.

(** A member (204) and a non-member (404). *)
Lemma is_user_member_of_org_result_witness :
  (exists member,
     is_user_member_of_org (answering 204 JNull) client "acme" 42 []
     = (inr member, [Http (gh_request_args client "/orgs/acme/members/42" "GET" [])])
     /\ (member = true <-> 204 = 204))
  /\ is_user_member_of_org (answering 404 not_found) client "acme" 42 []
     = (inr false, [Http (gh_request_args client "/orgs/acme/members/42" "GET" [])]).
Proof.
  split.
  - destruct (is_user_member_of_org_result (answering 204 JNull) client "acme" 42 [])
      as (H & _).
    exact (H (mkResponse 204 JNull) eq_refl).
  - destruct (is_user_member_of_org_result (answering 404 not_found) client "acme" 42 [])
      as (_ & _ & _ & H).
    exact (H (mkResponse 404 not_found) eq_refl eq_refl eq_refl).
Defined.

Lemma list_teams_result_witness :
  list_teams (answering 404 not_found) client "acme" []
  = (inr tt, [Http (gh_request_args client "/orgs/acme/teams" "GET" []);
              Print "Something unexpected happened"]).
Proof.
  destruct (list_teams_result (answering 404 not_found) client "acme" []) as (H & _).
  apply (H (mkResponse 404 not_found) eq_refl). discriminate.
Defined.

(** ** Where the helpers leave the specification *)

(** C6 fails at status 401: the status is not 200, and [get_user_id]
    raises the authentication error instead of returning [None]. *)
Lemma get_user_id_raises_on_401 :
  let out := get_user_id (answering 401 bad_credentials) client "octocat" [] in
  fst out <> inr None
  /\ fst out = inl (GithubAPIError "Authentication failed. Please check your GitHub token"
                     (Some 401) (Some bad_credentials)).
Proof. split; [discriminate | reflexivity]. Qed.

(** C7 fails at status 500: the status is not 204, and
    [is_user_member_of_org] raises the server error after three attempts
    instead of returning false. *)
Lemma is_user_member_of_org_raises_on_500 :
  let out := is_user_member_of_org (answering 500 JNull) client "acme" 42 [] in
  fst out <> inr false
  /\ fst out = inl (GithubAPIError "GitHub server error" (Some 500) (Some JNull))
  /\ List.length (requests_of (snd out)) = 3%nat.
Proof. split; [discriminate | split; reflexivity]. Qed.

(** C8 fails at status 403: the status is not 200, and [list_teams]
    raises a [GithubAPIError] and prints nothing. *)
Lemma list_teams_raises_on_403 :
  let out := list_teams (answering 403 JNull) client "acme" [] in
  fst out = inl (GithubAPIError "Rate limit exceeded or insufficient permissions"
                   (Some 403) (Some JNull))
  /\ ~ In (Print "Something unexpected happened") (snd out).
Proof.
  split; [reflexivity|]. vm_compute. intros H.
  repeat (destruct H as [H|H]; [discriminate H|]). exact H.
Qed.

(** At status 200 with two teams in the body, [list_teams] raises
    [TypeError] where a listing is expected. *)
Lemma list_teams_raises_on_200 :
  list_teams (answering 200 (JList [JDict [("name", JStr "core"); ("id", JInt 1)];
                                    JDict [("name", JStr "docs"); ("id", JInt 2)]]))
    client "acme" []
  = (inl (TypeError "object of type 'Response' has no len()"),
     [Http (gh_request_args client "/orgs/acme/teams" "GET" [])]).
Proof. reflexivity. Qed.


(** ** Every run of the loop *)

Section Runs.

Variable server : nat -> Request -> NetOutcome.
Variable self : github.
Variable req : Request.

(** How far a run of the loop gets: the attempts up to some [j + k] are
    retried, and attempt [j + k] returns, raises the error of its
    outcome, or has its sleep refused. *)
Lemma gh_loop_run (m : nat) : forall (j : nat) last w,
  Z.of_nat (j + S m) = max_retries self ->
  exists k,
    (k <= m)%nat
    /\ (forall i, (i < k)%nat -> retried (server (sent w + i)%nat req))
    /\ ((exists res,
           server (sent w + k)%nat req = Answered res
           /\ (status_code res < 400 \/ status_code res = 404)
           /\ gh_loop server self req (map Z.of_nat (seq j (S m))) last w
              = (inr res, w ++ attempts_events self req j (S k)))
        \/ (exists e,
              api_failure self (Z.of_nat (j + k)) (server (sent w + k)%nat req) e
              /\ gh_loop server self req (map Z.of_nat (seq j (S m))) last w
                 = (inl e, w ++ attempts_events self req j (S k)
                             ++ [Log ERROR ("GitHub API Error: " ++ str_exn e)%string]))
        \/ (0 < Z.of_nat (j + k)
            /\ can_sleep (retry_delay self * 2 ^ (Z.of_nat (j + k) - 1)) = false
            /\ exists e,
                 ((exists msg, e = ValueError msg) \/ (exists msg, e = OverflowError msg))
                 /\ gh_loop server self req (map Z.of_nat (seq j (S m))) last w
                    = (inl e, w ++ attempts_events self req j k
                                ++ [Log WARNING (retry_warning self (Z.of_nat (j + k)))]))).
Proof.
  induction m as [|m IH]; intros j last w Hn.
  - exists 0%nat. rewrite !Nat.add_0_r. split; [lia|]. split; [intros i Hi; lia|].
    cbn [seq map]. rewrite gh_loop_cons.
    destruct (attempt_outcome server self req (Z.of_nat j) last w)
      as [(res & Hnet & Hs & Hrun)|[(Hk & _)|[(e & Hfail & Hrun)
          |(Hpos & Hno & e & He & Hrun)]]].
    + left. exists res. repeat split; [exact Hnet | exact Hs |].
      erewrite bind_value by exact Hrun. unfold ret, attempts_events. simpl.
      now rewrite app_nil_r.
    + lia.
    + right; left. exists e. split; [exact Hfail|].
      erewrite bind_raised by exact Hrun. unfold attempts_events. simpl.
      now rewrite app_nil_r.
    + right; right. split; [exact Hpos|]. split; [exact Hno|].
      exists e. split; [exact He|].
      erewrite bind_raised by exact Hrun. reflexivity.
  - cbn [seq map]. rewrite gh_loop_cons.
    destruct (attempt_outcome server self req (Z.of_nat j) last w)
      as [(res & Hnet & Hs & Hrun)|[(Hk & Hr & last' & Hrun)|[(e & Hfail & Hrun)
          |(Hpos & Hno & e & He & Hrun)]]].
    + exists 0%nat. rewrite !Nat.add_0_r. split; [lia|]. split; [intros i Hi; lia|].
      left. exists res. repeat split; [exact Hnet | exact Hs |].
      erewrite bind_value by exact Hrun. unfold ret, attempts_events. simpl.
      now rewrite app_nil_r.
    + destruct (IH (S j) last' (w ++ attempt_events self req (Z.of_nat j)))
        as (k & Hkm & Hprev & Hend); [lia|].
      exists (S k). split; [lia|]. split.
      * intros [|i] Hi; [now rewrite Nat.add_0_r|].
        specialize (Hprev i). rewrite sent_attempt in Hprev.
        replace (sent w + S i)%nat with (S (sent w) + i)%nat by lia.
        apply Hprev. lia.
      * erewrite bind_value by exact Hrun. cbv beta iota.
        rewrite sent_attempt in Hend.
        replace (sent w + S k)%nat with (S (sent w) + k)%nat by lia.
        replace (j + S k)%nat with (S j + k)%nat by lia.
        rewrite (attempts_events_S self req j (S k)).
        rewrite (attempts_events_S self req j k).
        cbn [seq map] in Hend.
        destruct Hend as [(res & Hnet & Hs & Hloop)|[(e & Hfail & Hloop)
                          |(Hpos & Hno & e & He & Hloop)]].
        -- left. exists res. repeat split; [exact Hnet | exact Hs |].
           rewrite Hloop. now rewrite <- !app_assoc.
        -- right; left. exists e. split; [exact Hfail|].
           rewrite Hloop. now rewrite <- !app_assoc.
        -- right; right. split; [exact Hpos|]. split; [exact Hno|].
           exists e. split; [exact He|].
           rewrite Hloop. now rewrite <- !app_assoc.
    + exists 0%nat. rewrite !Nat.add_0_r. split; [lia|]. split; [intros i Hi; lia|].
      right; left. exists e. split; [exact Hfail|].
      erewrite bind_raised by exact Hrun. unfold attempts_events. simpl.
      now rewrite app_nil_r.
    + exists 0%nat. rewrite !Nat.add_0_r. split; [lia|]. split; [intros i Hi; lia|].
      right; right. split; [exact Hpos|]. split; [exact Hno|].
      exists e. split; [exact He|].
      erewrite bind_raised by exact Hrun. reflexivity.
Qed.

End Runs.

(** ** Every call of gh_request *)

Lemma logged_app (level : Level) (w1 w2 : World) :
  logged level (w1 ++ w2) = logged level w1 ++ logged level w2.
Proof.
  induction w1 as [|ev w1 IH]; simpl; [reflexivity|].
  destruct ev as [q|d|l msg|line]; try exact IH.
  destruct level, l; simpl; now rewrite ?IH.
Qed.

Lemma printed_app (w1 w2 : World) :
  printed (w1 ++ w2) = printed w1 ++ printed w2.
Proof.
  induction w1 as [|ev w1 IH]; simpl; [reflexivity|].
  destruct ev; simpl; now rewrite IH.
Qed.

Lemma total_slept_app (w1 w2 : World) :
  total_slept (w1 ++ w2) = total_slept w1 + total_slept w2.
Proof.
  unfold total_slept. rewrite sleeps_of_app.
  induction (sleeps_of w1) as [|d l IH]; simpl; lia.
Qed.

Lemma backoff_schedule_S (self : github) (m : nat) :
  backoff_schedule self (S m)
  = backoff_schedule self m ++ [retry_delay self * 2 ^ Z.of_nat m].
Proof.
  unfold backoff_schedule. rewrite seq_S, !map_app. cbn [map Nat.add].
  now replace (Z.of_nat (S m) - 1) with (Z.of_nat m) by lia.
Qed.

(** The sleeps before [m] retries add up to [retry_delay * (2 ^ m - 1)]. *)
Lemma backoff_schedule_sum (self : github) (m : nat) :
  fold_right Z.add 0 (backoff_schedule self m)
  = retry_delay self * (2 ^ Z.of_nat m - 1).
Proof.
  induction m as [|m IH]; [simpl; lia|].
  rewrite backoff_schedule_S, fold_right_app. cbn [fold_right].
  assert (Happ : forall l a, fold_right Z.add a l = fold_right Z.add 0 l + a)
    by (intros l a; induction l as [|x l IHl]; simpl; lia).
  rewrite Happ, IH, Nat2Z.inj_succ, Z.pow_succ_r by lia. lia.
Qed.

Lemma logged_error_attempts (self : github) (req : Request) (k m : nat) :
  logged ERROR (attempts_events self req k m) = [].
Proof.
  revert k. induction m as [|m IH]; intros k; [reflexivity|].
  rewrite attempts_events_S, logged_app, IH.
  unfold attempt_events, retry_prelude. now destruct (0 <? Z.of_nat k).
Qed.

Lemma printed_attempts (self : github) (req : Request) (k m : nat) :
  printed (attempts_events self req k m) = [].
Proof.
  revert k. induction m as [|m IH]; intros k; [reflexivity|].
  rewrite attempts_events_S, printed_app, IH.
  unfold attempt_events, retry_prelude. now destruct (0 <? Z.of_nat k).
Qed.

Lemma sleeps_of_attempts_schedule (self : github) (req : Request) (m : nat) :
  sleeps_of (attempts_events self req 0 m) = backoff_schedule self (m - 1).
Proof. apply sleeps_of_attempts. Qed.

Section Calls.

Variable server : nat -> Request -> NetOutcome.
Variable self : github.
Variables path method : string.
Variable data : list (string * JSON).

Let req : Request := gh_request_args self path method data.
Let n : nat := Z.to_nat (max_retries self).

(** A call with at least one attempt: some attempts are retried, then one
    returns the answer to its request, raises the error of its outcome,
    or has its sleep refused. *)
Lemma gh_request_run (w : World) :
  0 < max_retries self ->
  exists k,
    (k < n)%nat
    /\ (forall i, (i < k)%nat -> retried (server (sent w + i)%nat req))
    /\ ((exists res,
           server (sent w + k)%nat req = Answered res
           /\ (status_code res < 400 \/ status_code res = 404)
           /\ gh_request server self path method data w
              = (inr res, w ++ attempts_events self req 0 (S k)))
        \/ (exists e,
              api_failure self (Z.of_nat k) (server (sent w + k)%nat req) e
              /\ gh_request server self path method data w
                 = (inl e, w ++ attempts_events self req 0 (S k)
                             ++ [Log ERROR ("GitHub API Error: " ++ str_exn e)%string]))
        \/ (0 < Z.of_nat k
            /\ can_sleep (retry_delay self * 2 ^ (Z.of_nat k - 1)) = false
            /\ exists e,
                 ((exists msg, e = ValueError msg) \/ (exists msg, e = OverflowError msg))
                 /\ gh_request server self path method data w
                    = (inl e, w ++ attempts_events self req 0 k
                                ++ [Log WARNING (retry_warning self (Z.of_nat k))]))).
Proof.
  intros Hpos.
  destruct (gh_loop_run server self req (n - 1) 0 None w) as (k & Hk & Hprev & Hend).
  { subst n. lia. }
  exists k. split; [subst n; lia|]. split; [exact Hprev|].
  unfold gh_request. fold req. rewrite range_seq. fold n.
  assert (Hn : S (n - 1) = n) by (subst n; lia).
  rewrite Hn in Hend. exact Hend.
Qed.

(** With backoffs that [time.sleep] accepts only two endings are left. *)
Lemma gh_request_run_ok (w : World) :
  delays_ok self ->
  0 < max_retries self ->
  exists k,
    (k < n)%nat
    /\ (forall i, (i < k)%nat -> retried (server (sent w + i)%nat req))
    /\ ((exists res,
           server (sent w + k)%nat req = Answered res
           /\ (status_code res < 400 \/ status_code res = 404)
           /\ gh_request server self path method data w
              = (inr res, w ++ attempts_events self req 0 (S k)))
        \/ (exists e,
              api_failure self (Z.of_nat k) (server (sent w + k)%nat req) e
              /\ gh_request server self path method data w
                 = (inl e, w ++ attempts_events self req 0 (S k)
                             ++ [Log ERROR ("GitHub API Error: " ++ str_exn e)%string]))).
Proof.
  intros Hd Hpos.
  destruct (gh_request_run w Hpos) as (k & Hk & Hprev & [H|[H|(Hk0 & Hno & _)]]).
  - exists k. repeat split; [exact Hk | exact Hprev | now left].
  - exists k. repeat split; [exact Hk | exact Hprev | now right].
  - rewrite Hd in Hno by (subst n; lia). discriminate.
Qed.

(** Without attempts ([max_retries] not positive) the loop body never
    runs. *)
Lemma gh_request_no_attempt (w : World) :
  max_retries self <= 0 ->
  gh_request server self path method data w
  = (inl (GithubAPIError "All retry attempts failed: None" None None),
     w ++ [Log ERROR "GitHub API Error: All retry attempts failed: None"]).
Proof.
  intros Hn. unfold gh_request. rewrite range_seq.
  replace (Z.to_nat (max_retries self)) with 0%nat by lia. reflexivity.
Qed.

End Calls.

Lemma logged_warning_attempts (self : github) (req : Request) (m : nat) :
  logged WARNING (attempts_events self req 0 m)
  = map (fun attempt =>
           ("Retrying request (attempt " ++ str_int (attempt + 1) ++ "/"
            ++ str_int (max_retries self) ++ ")")%string)
        (map Z.of_nat (seq 1 (m - 1))).
Proof.
  assert (Hgen : forall k j,
    logged WARNING (attempts_events self req (S j) k)
    = map (fun attempt =>
             ("Retrying request (attempt " ++ str_int (attempt + 1) ++ "/"
              ++ str_int (max_retries self) ++ ")")%string)
          (map Z.of_nat (seq (S j) k))).
  { induction k as [|k IH]; intros j; [reflexivity|].
    rewrite attempts_events_S, logged_app, IH.
    unfold attempt_events, retry_prelude.
    destruct (Z.ltb_spec 0 (Z.of_nat (S j))); [reflexivity|lia]. }
  destruct m as [|m]; [reflexivity|].
  rewrite attempts_events_S, logged_app, Hgen. simpl. now rewrite Nat.sub_0_r.
Qed.

Section CallProperties.

Variable server : nat -> Request -> NetOutcome.
Variable self : github.
Variables path method : string.
Variable data : list (string * JSON).

Let req : Request := gh_request_args self path method data.
Let n : nat := Z.to_nat (max_retries self).

(** X1: when the backoffs are lengths [time.sleep] accepts, the attempts
    before the last are all retried and the last request ends in a
    network error, the call raises the network error with the text of
    the exception, the status of the response attached to the exception
    if there is one, and no JSON body. *)
Theorem gh_request_network_error (w : World) (msg : string) (response : option Response) :
  delays_ok self ->
  0 < max_retries self ->
  (forall i, (i < n - 1)%nat -> retried (server (sent w + i)%nat req)) ->
  server (sent w + (n - 1))%nat req = Errored msg response ->
  gh_request server self path method data w
  = (inl (GithubAPIError ("Network error: " ++ msg)%string
            (option_map status_code response) None),
     w ++ attempts_events self req 0 n
       ++ [Log ERROR ("GitHub API Error: Network error: " ++ msg)%string]).
Proof.
  intros Hd Hpos Hprev Hlast. subst req n.
  destruct (gh_request_last_attempt server self path method data w Hd Hpos Hprev)
    as [last H].
  rewrite H, gh_loop_cons.
  erewrite bind_raised.
  2:{ apply attempt_errored_last with (msg := msg) (response := response);
        [apply delays_backoff; [exact Hd | lia] | | reflexivity].
      now rewrite sent_attempts. }
  rewrite <- (attempts_events_last self path method data) by exact Hpos.
  now rewrite <- !app_assoc.
Qed.

(** X2: when the backoffs are lengths [time.sleep] accepts, the attempts
    0, ..., [j - 1] are retried (403, a status from 500 up, a timeout, a
    network error, or a client error whose body does not decode) and
    attempt [j] is answered with a status below 400 or with 404, the
    call returns that response after [j + 1] requests and the sleeps of
    the first [j] retries, and logs no error. *)
Theorem gh_request_returns_after_retries (j : nat) (w : World) (res : Response) :
  delays_ok self ->
  Z.of_nat j < max_retries self ->
  (forall i, (i < j)%nat -> retried (server (sent w + i)%nat req)) ->
  server (sent w + j)%nat req = Answered res ->
  status_code res < 400 \/ status_code res = 404 ->
  let out := gh_request server self path method data w in
  fst out = inr res
  /\ requests_of (snd out) = requests_of w ++ repeat req (S j)
  /\ sleeps_of (snd out) = sleeps_of w ++ backoff_schedule self j
  /\ logged ERROR (snd out) = logged ERROR w.
Proof.
  intros Hd Hj Hprev Hnet Hs out. subst req n.
  assert (Hout : out = (inr res, w ++ attempts_events self
                                        (gh_request_args self path method data) 0 (S j))).
  { subst out.
    destruct (gh_request_reaches server self path method data j w) as [last H];
      [intros i Hi; apply delays_backoff; [exact Hd | lia] | exact Hj | exact Hprev |].
    rewrite H, gh_loop_cons.
    erewrite bind_value.
    2:{ apply attempt_returns with (res := res);
          [apply delays_backoff; [exact Hd | lia] | | exact Hs].
        now rewrite sent_attempts. }
    unfold ret. rewrite attempts_events_snoc. now rewrite <- !app_assoc. }
  rewrite Hout. cbn [fst snd]. split; [reflexivity|]. split; [|split].
  - now rewrite requests_of_app, requests_of_attempts.
  - rewrite sleeps_of_app, sleeps_of_attempts_schedule.
    now replace (S j - 1)%nat with j by lia.
  - rewrite logged_app, logged_error_attempts. now rewrite app_nil_r.
Qed.

(** X3: with [max_retries] zero or negative the call sends no request and
    does not sleep; it logs and raises the error for exhausted retries,
    whose text ends in [None]. *)
Theorem gh_request_without_attempts (w : World) :
  max_retries self <= 0 ->
  let out := gh_request server self path method data w in
  fst out = inl (GithubAPIError "All retry attempts failed: None" None None)
  /\ requests_of (snd out) = requests_of w
  /\ sleeps_of (snd out) = sleeps_of w
  /\ logged ERROR (snd out)
     = logged ERROR w ++ ["GitHub API Error: All retry attempts failed: None"].
Proof.
  intros Hn out. subst out.
  rewrite (gh_request_no_attempt server self path method data w Hn). cbn [fst snd].
  rewrite requests_of_app, sleeps_of_app, logged_app. simpl.
  now rewrite !app_nil_r.
Qed.

(** X4: whatever the network does, a call sends its request [k] times
    with [k] at most [max_retries] (and at least once when [max_retries]
    is positive), always the same request, and sleeps once before each
    request after the first, [retry_delay * 2 ^ (attempt - 1)] seconds
    before attempt [attempt]. *)
Theorem gh_request_attempt_bounds (w : World) :
  let out := gh_request server self path method data w in
  exists k,
    Z.min 1 (max_retries self) <= Z.of_nat k <= Z.max 0 (max_retries self)
    /\ requests_of (snd out) = requests_of w ++ repeat req k
    /\ sleeps_of (snd out) = sleeps_of w ++ backoff_schedule self (k - 1).
Proof.
  intros out. subst out req n.
  destruct (Z_lt_le_dec 0 (max_retries self)) as [Hpos|Hn].
  - destruct (gh_request_run server self path method data w Hpos)
      as (k & Hk & _ & [(res & _ & _ & ->)|[(e & _ & ->)|(Hk0 & _ & e & _ & ->)]]).
    + exists (S k). cbn [fst snd]. split; [lia|].
      rewrite !requests_of_app, !sleeps_of_app, requests_of_attempts,
        sleeps_of_attempts_schedule. simpl. rewrite ?app_nil_r. now split.
    + exists (S k). cbn [fst snd]. split; [lia|].
      rewrite !requests_of_app, !sleeps_of_app, requests_of_attempts,
        sleeps_of_attempts_schedule. simpl. rewrite ?app_nil_r. now split.
    + exists k. cbn [fst snd]. split; [lia|].
      rewrite !requests_of_app, !sleeps_of_app, requests_of_attempts,
        sleeps_of_attempts_schedule. simpl. rewrite ?app_nil_r. now split.
  - exists 0%nat. rewrite (gh_request_no_attempt server self path method data w Hn).
    cbn [fst snd]. split; [lia|].
    rewrite requests_of_app, sleeps_of_app. simpl. now rewrite !app_nil_r.
Qed.


(** X6: a call logs one line at error level exactly when it raises a
    [GithubAPIError], the text [GitHub API Error: ] followed by the
    message of the error; it logs none when it returns or when a sleep
    is refused, and it never prints. *)
Theorem gh_request_logs_its_error (w : World) :
  let out := gh_request server self path method data w in
  logged ERROR (snd out)
  = logged ERROR w ++ match fst out with
                      | inl (GithubAPIError message _ _) =>
                          [("GitHub API Error: " ++ message)%string]
                      | _ => []
                      end
  /\ printed (snd out) = printed w.
Proof.
  intros out. subst out.
  destruct (Z_lt_le_dec 0 (max_retries self)) as [Hpos|Hn].
  - destruct (gh_request_run server self path method data w Hpos)
      as (k & _ & _ & [(res & _ & _ & ->)|[(e' & Hfail & ->)
                       |(_ & _ & e' & He & ->)]]); cbn [fst snd];
      rewrite !logged_app, !printed_app, logged_error_attempts, printed_attempts.
    + simpl. now rewrite ?app_nil_r.
    + destruct Hfail; simpl; now rewrite ?app_nil_r.
    + destruct He as [[msg ->]|[msg ->]]; simpl; now rewrite ?app_nil_r.
  - rewrite (gh_request_no_attempt server self path method data w Hn). cbn [fst snd].
    rewrite logged_app, printed_app. simpl. now rewrite app_nil_r.
Qed.


(** X8: with at least one attempt the error for exhausted retries, [All
    retry attempts failed], is never raised, whatever the network does:
    the last attempt always returns or raises. *)
Theorem gh_request_aggregate_error_unreachable (w : World) (text : string) :
  0 < max_retries self ->
  fst (gh_request server self path method data w)
  <> inl (GithubAPIError ("All retry attempts failed: " ++ text)%string None None).
Proof.
  intros Hpos.
  destruct (gh_request_run server self path method data w Hpos)
    as (k & _ & _ & [(res & _ & _ & ->)|[(e' & Hfail & ->)
                     |(_ & _ & e' & He & ->)]]); cbn [fst].
  - discriminate.
  - destruct Hfail; discriminate.
  - destruct He as [[msg ->]|[msg ->]]; discriminate.
Qed.

(** X9: a response that a call returns is the answer of the network to
    the last request of the call, unchanged, and nothing follows that
    request. *)
Theorem gh_request_returns_last_answer (w : World) (res : Response) :
  fst (gh_request server self path method data w) = inr res ->
  exists k,
    (k < n)%nat
    /\ server (sent w + k)%nat req = Answered res
    /\ snd (gh_request server self path method data w)
       = w ++ attempts_events self req 0 k ++ retry_prelude self (Z.of_nat k)
           ++ [Http req].
Proof.
  subst req n.
  destruct (Z_lt_le_dec 0 (max_retries self)) as [Hpos|Hn].
  - destruct (gh_request_run server self path method data w Hpos)
      as (k & Hk & _ & [(res' & Hnet & _ & ->)|[(e' & _ & ->)
                        |(_ & _ & e' & _ & ->)]]); cbn [fst snd].
    + intros [= <-]. exists k. repeat split; [exact Hk | exact Hnet |].
      rewrite attempts_events_snoc. unfold attempt_events.
      rewrite <- ?app_assoc. reflexivity.
    + discriminate.
    + discriminate.
  - rewrite (gh_request_no_attempt server self path method data w Hn). discriminate.
Qed.

(** X10: with a delay that is not negative, a call spends at most
    [retry_delay * (2 ^ (max_retries - 1) - 1)] seconds in [time.sleep],
    whatever the network does. *)
Theorem gh_request_total_sleep_bound (w : World) :
  0 < max_retries self ->
  0 <= retry_delay self ->
  let out := gh_request server self path method data w in
  total_slept w <= total_slept (snd out)
                <= total_slept w + retry_delay self * (2 ^ (max_retries self - 1) - 1).
Proof.
  intros Hpos Hd out. subst out.
  assert (Hsum : forall k, (1 <= k <= n)%nat ->
            0 <= total_slept (attempts_events self req 0 k)
              <= retry_delay self * (2 ^ (max_retries self - 1) - 1)).
  { intros k Hk. unfold total_slept.
    rewrite sleeps_of_attempts_schedule, backoff_schedule_sum.
    assert (1 <= 2 ^ Z.of_nat (k - 1)) by (apply Z.pow_le_mono_r with (b := 0); lia).
    assert (2 ^ Z.of_nat (k - 1) <= 2 ^ (max_retries self - 1))
      by (apply Z.pow_le_mono_r; subst n; lia).
    split; [apply Z.mul_nonneg_nonneg; lia|].
    apply Z.mul_le_mono_nonneg_l; lia. }
  destruct (gh_request_run server self path method data w Hpos)
    as (k & Hk & _ & [(res & _ & _ & ->)|[(e' & _ & ->)|(Hk0 & _ & e' & _ & ->)]]);
    cbn [fst snd]; fold req; rewrite !total_slept_app.
  - specialize (Hsum (S k)). lia.
  - specialize (Hsum (S k)).
    change (total_slept [Log ERROR ("GitHub API Error: " ++ str_exn e')%string]) with 0.
    lia.
  - specialize (Hsum k).
    change (total_slept [Log WARNING (retry_warning self (Z.of_nat k))]) with 0.
    lia.
Qed.

(** X14: when the backoffs are lengths [time.sleep] accepts, each request
    of a call after the first is announced by one warning, [Retrying
    request (attempt i/N)] with [i] counting from 2 and [N] the value of
    [max_retries]; a call that sends [k] requests logs [k - 1]
    warnings. *)
Theorem gh_request_warns_before_each_retry (w : World) :
  delays_ok self ->
  let out := gh_request server self path method data w in
  exists k,
    requests_of (snd out) = requests_of w ++ repeat req k
    /\ logged WARNING (snd out)
       = logged WARNING w
         ++ map (fun attempt =>
                   ("Retrying request (attempt " ++ str_int (attempt + 1) ++ "/"
                    ++ str_int (max_retries self) ++ ")")%string)
                (map Z.of_nat (seq 1 (k - 1))).
Proof.
  intros Hd out. subst out req n.
  destruct (Z_lt_le_dec 0 (max_retries self)) as [Hpos|Hn].
  - destruct (gh_request_run_ok server self path method data w Hd Hpos)
      as (k & _ & _ & [(res & _ & _ & ->)|(e' & _ & ->)]);
      exists (S k); cbn [fst snd];
      rewrite !requests_of_app, !logged_app, requests_of_attempts,
        logged_warning_attempts; simpl; rewrite ?app_nil_r; now split.
  - exists 0%nat. rewrite (gh_request_no_attempt server self path method data w Hn).
    cbn [fst snd]. rewrite requests_of_app, logged_app. simpl.
    now rewrite !app_nil_r.
Qed.

End CallProperties.

Section DecodedErrors.

Variable server : nat -> Request -> NetOutcome.
Variable self : github.
Variables path method : string.
Variable data : list (string * JSON).

Let req : Request := gh_request_args self path method data.
Let n : nat := Z.to_nat (max_retries self).

(** X17: when the backoffs are lengths [time.sleep] accepts, every
    attempt of a call is answered with a status in {403} or [500, 599]
    and the body of the last answer decodes, the call sends the request
    exactly [max_retries] times, sleeps [retry_delay * 2 ^ (attempt - 1)]
    seconds before each of the [max_retries - 1] retries, and then raises
    the rate-limit error when the last status is 403 and the server error
    otherwise, with the status and the decoded body. *)
Theorem gh_request_retryable_exhausts (w : World) (resp : nat -> Response) (doc : JSON) :
  delays_ok self ->
  0 < max_retries self ->
  (forall k, (k < n)%nat ->
     server (sent w + k)%nat req = Answered (resp k) /\
     (status_code (resp k) = 403 \/ 500 <= status_code (resp k) <= 599)) ->
  json (resp (n - 1)%nat) = Document doc ->
  let final := resp (n - 1)%nat in
  let out := gh_request server self path method data w in
  fst out = inl (GithubAPIError (exhausted_message (status_code final))
                   (Some (status_code final)) (Some doc))
  /\ snd out = w ++ attempts_events self req 0 n
                 ++ [Log ERROR ("GitHub API Error: "
                                ++ exhausted_message (status_code final))%string]
  /\ requests_of (snd out) = requests_of w ++ repeat req n
  /\ sleeps_of (snd out) = sleeps_of w ++ backoff_schedule self (n - 1).
Proof.
  intros Hd Hpos Hnet Hdoc final out.
  assert (Hout : out
    = (inl (GithubAPIError (exhausted_message (status_code final))
              (Some (status_code final)) (Some doc)),
       w ++ attempts_events self req 0 n
         ++ [Log ERROR ("GitHub API Error: "
                        ++ exhausted_message (status_code final))%string])).
  { subst out req n.
    destruct (gh_request_last_attempt server self path method data w Hd Hpos)
      as [last H].
    - intros i Hi. destruct (Hnet i) as [-> Hs]; [lia|]. simpl. lia.
    - rewrite H, gh_loop_cons.
      destruct (Hnet (Z.to_nat (max_retries self) - 1)%nat) as [Hlast Hs]; [lia|].
      erewrite bind_raised.
      2:{ apply attempt_retryable_last with (res := final) (doc := doc).
          - apply delays_backoff; [exact Hd | lia].
          - now rewrite sent_attempts.
          - subst final. lia.
          - reflexivity.
          - exact Hdoc. }
      rewrite <- (attempts_events_last self path method data) by exact Hpos.
      now rewrite <- !app_assoc. }
  rewrite Hout. cbn [fst snd]. repeat split.
  - rewrite !requests_of_app, requests_of_attempts. simpl. now rewrite app_nil_r.
  - rewrite !sleeps_of_app, sleeps_of_attempts_schedule. simpl. now rewrite app_nil_r.
Qed.

(** X18: when the backoffs are lengths [time.sleep] accepts, a call that
    is answered with status 401 and a body that decodes, at its first
    attempt or after [j] retried ones, raises the authentication error at
    once; one answered with another status from 400 to 499, 403 and 404
    apart, and a body that decodes raises the client error that carries
    the status.  In both cases the answered request is the last one the
    call sends. *)
Theorem gh_request_client_error_immediate (j : nat) (w : World) (res : Response)
    (doc : JSON) :
  delays_ok self ->
  Z.of_nat j < max_retries self ->
  (forall i, (i < j)%nat -> retried (server (sent w + i)%nat req)) ->
  server (sent w + j)%nat req = Answered res ->
  400 <= status_code res < 500 ->
  status_code res <> 403 -> status_code res <> 404 ->
  json res = Document doc ->
  let out := gh_request server self path method data w in
  let message :=
    if status_code res =? 401
    then "Authentication failed. Please check your GitHub token"
    else ("Client error: " ++ str_int (status_code res))%string in
  fst out = inl (GithubAPIError message (Some (status_code res)) (Some doc))
  /\ snd out = w ++ attempts_events self req 0 (S j)
                 ++ [Log ERROR ("GitHub API Error: " ++ message)%string]
  /\ requests_of (snd out) = requests_of w ++ repeat req (S j).
Proof.
  intros Hd Hj Hprev Hnet Hs H3 H4 Hdoc out message.
  assert (Hok : backoff_ok self (Z.of_nat j))
    by (apply delays_backoff; [exact Hd | lia]).
  assert (Hout : out
    = (inl (GithubAPIError message (Some (status_code res)) (Some doc)),
       w ++ attempts_events self req 0 (S j)
         ++ [Log ERROR ("GitHub API Error: " ++ message)%string])).
  { subst out message req n.
    destruct (gh_request_reaches server self path method data j w) as [last H];
      [intros i Hi; apply delays_backoff; [exact Hd | lia] | exact Hj | exact Hprev |].
    rewrite H, gh_loop_cons, attempts_events_snoc. cbn [Nat.add].
    assert (Hnet' : server (sent (w ++ attempts_events self
                                         (gh_request_args self path method data) 0 j))
                      (gh_request_args self path method data) = Answered res)
      by now rewrite sent_attempts.
    destruct (Z.eqb_spec (status_code res) 401) as [E|E].
    - erewrite bind_raised
        by (apply attempt_unauthorized with (res := res) (doc := doc); eassumption).
      rewrite E. now rewrite <- !app_assoc.
    - erewrite bind_raised
        by (apply attempt_client_error with (res := res) (doc := doc); eassumption).
      now rewrite <- !app_assoc. }
  rewrite Hout. cbn [fst snd]. repeat split.
  rewrite !requests_of_app, requests_of_attempts. simpl. now rewrite app_nil_r.
Qed.

End DecodedErrors.

(** ** More on the endpoint helpers *)

Lemma gh_request_printed (server : nat -> Request -> NetOutcome) (self : github)
    (path method : string) (data : list (string * JSON)) (w : World) :
  printed (snd (gh_request server self path method data w)) = printed w.
Proof.
  destruct (Z_lt_le_dec 0 (max_retries self)) as [Hpos|Hn].
  - destruct (gh_request_run server self path method data w Hpos)
      as (k & _ & _ & [(res & _ & _ & ->)|[(e' & _ & ->)|(_ & _ & e' & _ & ->)]]);
      cbn [snd]; rewrite !printed_app, printed_attempts; simpl;
      now rewrite ?app_nil_r.
  - rewrite (gh_request_no_attempt server self path method data w Hn). cbn [snd].
    rewrite printed_app. simpl. now rewrite app_nil_r.
Qed.

Section HelperProperties.

Variable server : nat -> Request -> NetOutcome.
Variable self : github.

(** X11: [invite_user_org] does not look at the status: for every org,
    user, teams and role, a first answer with any status below 400 or
    with 404 is returned unchanged after one request, a POST to
    [/orgs/{org}/invitations] that always carries a payload, the dump of
    the dict of [invitee_id], [role] and [team_ids]. *)
Theorem invite_user_org_returns_any_status (org : string) (user : Z)
    (teams : list JSON) (role : string) (w : World) (res : Response) :
  let body := [("invitee_id", JInt user); ("role", JStr role);
               ("team_ids", JList teams)] in
  let req := gh_request_args self ("/orgs/" ++ org ++ "/invitations")%string "POST" body in
  0 < max_retries self ->
  server (sent w) req = Answered res ->
  status_code res < 400 \/ status_code res = 404 ->
  invite_user_org server self org user teams role w = (inr res, w ++ [Http req])
  /\ req_method req = "POST"
  /\ req_url req = ("https://api.github.com/orgs/" ++ org ++ "/invitations")%string
  /\ req_data req = Some (json_dumps (JDict body)).
Proof.
  intros body req Hpos Hnet Hs. split; [|repeat split].
  unfold invite_user_org.
  erewrite bind_value; [reflexivity|].
  now apply gh_request_first_returned.
Qed.

(** X12: when the answer has status 200 and its JSON body is an object
    without the member [id], [get_user_id] raises [KeyError] for [id];
    when the body is a document that is not an object, it raises
    [TypeError]; when the body does not decode, the decode error of
    [res.json()] reaches the caller. *)
Theorem get_user_id_without_id (user : string) (w : World) (res : Response) :
  let req := gh_request_args self ("/users/" ++ user)%string "GET" [] in
  0 < max_retries self ->
  server (sent w) req = Answered res ->
  status_code res = 200 ->
  match json res with
  | Document (JDict fields) =>
      lookup fields "id" = None ->
      get_user_id server self user w = (inl (KeyError "id"), w ++ [Http req])
  | Document _ =>
      exists msg,
        get_user_id server self user w = (inl (TypeError msg), w ++ [Http req])
  | Undecodable msg =>
      get_user_id server self user w = (inl (RequestException msg None), w ++ [Http req])
  end.
Proof.
  intros req Hpos Hnet Hs.
  assert (Hrun : gh_request server self ("/users/" ++ user)%string "GET" [] w
                 = (inr res, w ++ [Http req]))
    by (apply gh_request_first_returned; [exact Hpos | exact Hnet | lia]).
  unfold get_user_id. erewrite bind_value by exact Hrun. rewrite Hs.
  cbn [Z.eqb Pos.eqb]. unfold bind at 1. unfold res_json.
  destruct (json res) as [doc|msg]; [|reflexivity].
  unfold ret. destruct doc as [| b | k | s | items | fields]; cbn [getitem bind].
  1-5: eexists; reflexivity.
  intros Hid. unfold bind. cbn [getitem]. now rewrite Hid.
Qed.

(** X13: [list_teams] never prints a team: when it returns it has printed
    the one line [Something unexpected happened], when it raises it has
    printed nothing; and whenever [gh_request] hands it a response with
    status 200 it raises [TypeError], from [len(res)]. *)
Theorem list_teams_never_lists (org : string) (w : World) :
  let out := list_teams server self org w in
  printed (snd out)
  = printed w ++ match fst out with
                 | inr _ => ["Something unexpected happened"]
                 | inl _ => []
                 end
  /\ forall res,
       fst (gh_request server self ("/orgs/" ++ org ++ "/teams")%string "GET" [] w)
       = inr res ->
       status_code res = 200 ->
       fst out = inl (TypeError "object of type 'Response' has no len()").
Proof.
  intros out. subst out. unfold list_teams, bind.
  pose proof (gh_request_printed server self ("/orgs/" ++ org ++ "/teams")%string
                "GET" [] w) as Hp.
  destruct (gh_request server self _ _ _ w) as [[e|res] w1]; cbn [fst snd] in *.
  - split; [now rewrite Hp, app_nil_r | discriminate].
  - destruct (Z.eqb_spec (status_code res) 200) as [E|E]; cbn [fst snd].
    + unfold len_Response, raise. cbn [fst snd].
      split; [now rewrite Hp, app_nil_r | reflexivity].
    + split.
      * unfold print, emit. cbn [fst snd]. rewrite printed_app, Hp. reflexivity.
      * intros r [= <-] Hs. contradiction.
Qed.

End HelperProperties.

(** X15: on a client as [__init__] builds it, whatever the token, the
    path and the network, a call sends one, two or three requests, each
    with timeout 30 and the token as bearer, and sleeps 1 second before
    the second and 2 seconds before the third. *)
Theorem fresh_client_limits (server : nat -> Request -> NetOutcome)
    (auth : string) (org : option string) (path method : string)
    (data : list (string * JSON)) (w : World) :
  let self := __init__ auth org in
  let req := gh_request_args self path method data in
  let out := gh_request server self path method data w in
  req_timeout req = 30
  /\ In ("Authorization", ("Bearer " ++ auth)%string) (req_headers req)
  /\ exists k,
       (1 <= k <= 3)%nat
       /\ requests_of (snd out) = requests_of w ++ repeat req k
       /\ sleeps_of (snd out) = sleeps_of w ++ firstn (k - 1) [1; 2].
Proof.
  intros self req out. split; [reflexivity|]. split; [simpl; tauto|].
  subst out req.
  destruct (gh_request_run_ok server self path method data w) as
    (k & Hk & _ & [(res & _ & _ & ->)|(e' & _ & ->)]);
    [apply fresh_delays_ok | reflexivity | |];
    exists (S k); cbn [fst snd]; (split; [simpl in Hk; lia|]);
    rewrite !requests_of_app, !sleeps_of_app, requests_of_attempts,
      sleeps_of_attempts_schedule; simpl in Hk;
    (split; [simpl; now rewrite ?app_nil_r|]);
    destruct k as [|[|[|k]]]; try lia; simpl; now rewrite ?app_nil_r.
Qed.

(** ** The further properties at concrete runs *)

(** A timeout, a 503, then a connection reset on a response 502. *)
Lemma gh_request_network_error_witness :
  fst (gh_request (scripted [TimedOut "Read timed out."; Answered (mkResponse 503 JNull)]
                     (Errored "Connection reset by peer" (Some (mkResponse 502 JNull))))
         client "/user" "GET" [] [])
  = inl (GithubAPIError "Network error: Connection reset by peer" (Some 502) None).
Proof.
  rewrite (gh_request_network_error
             (scripted [TimedOut "Read timed out."; Answered (mkResponse 503 JNull)]
                (Errored "Connection reset by peer" (Some (mkResponse 502 JNull))))
             client "/user" "GET" [] [] "Connection reset by peer"
             (Some (mkResponse 502 JNull))).
  - reflexivity.
  - apply fresh_delays_ok.
  - reflexivity.
  - intros i Hi.
    destruct i as [|[|i]]; [exact I | right; left; simpl; lia | simpl in Hi; lia].
  - reflexivity.
Defined.

(** A 403, a timeout, then a 200. *)
Lemma gh_request_returns_after_retries_witness :
  let out := gh_request (scripted [Answered (mkResponse 403 JNull);
                                   TimedOut "Read timed out."]
                           (Answered (mkResponse 200 octocat)))
               client "/users/octocat" "GET" [] [] in
  fst out = inr (mkResponse 200 octocat)
  /\ requests_of (snd out) = repeat (gh_request_args client "/users/octocat" "GET" []) 3
  /\ sleeps_of (snd out) = [1; 2]
  /\ logged ERROR (snd out) = [].
Proof.
  apply (gh_request_returns_after_retries
           (scripted [Answered (mkResponse 403 JNull); TimedOut "Read timed out."]
              (Answered (mkResponse 200 octocat)))
           client "/users/octocat" "GET" [] 2 [] (mkResponse 200 octocat)).
  - apply fresh_delays_ok.
  - reflexivity.
  - intros i Hi. destruct i as [|[|i]]; [left; reflexivity | exact I | lia].
  - reflexivity.
  - left. simpl. lia.
Defined.

Lemma gh_request_without_attempts_witness :
  let out := gh_request (answering 200 octocat) (mk_github "token" None 30 0 1)
               "/users/octocat" "GET" [] [] in
  fst out = inl (GithubAPIError "All retry attempts failed: None" None None)
  /\ requests_of (snd out) = []
  /\ sleeps_of (snd out) = []
  /\ logged ERROR (snd out) = ["GitHub API Error: All retry attempts failed: None"].
Proof.
  apply (gh_request_without_attempts (answering 200 octocat)
           (mk_github "token" None 30 0 1) "/users/octocat" "GET" [] []).
  simpl. lia.
Defined.



Lemma gh_request_aggregate_error_unreachable_witness :
  fst (gh_request unreachable client "/user" "GET" [] [])
  <> inl (GithubAPIError "All retry attempts failed: Read timed out." None None).
Proof.
  apply (gh_request_aggregate_error_unreachable unreachable client "/user" "GET" [] []
           "Read timed out.").
  reflexivity.
Defined.

Lemma gh_request_returns_last_answer_witness :
  exists k,
    (k < 3)%nat
    /\ scripted [Answered (mkResponse 500 JNull)] (Answered (mkResponse 204 JNull))
         (sent [] + k)%nat (gh_request_args client "/orgs/acme/members/42" "GET" [])
       = Answered (mkResponse 204 JNull)
    /\ snd (gh_request (scripted [Answered (mkResponse 500 JNull)]
                          (Answered (mkResponse 204 JNull)))
              client "/orgs/acme/members/42" "GET" [] [])
       = [] ++ attempts_events client (gh_request_args client "/orgs/acme/members/42" "GET" [])
                 0 k
            ++ retry_prelude client (Z.of_nat k)
            ++ [Http (gh_request_args client "/orgs/acme/members/42" "GET" [])].
Proof.
  apply (gh_request_returns_last_answer
           (scripted [Answered (mkResponse 500 JNull)] (Answered (mkResponse 204 JNull)))
           client "/orgs/acme/members/42" "GET" [] [] (mkResponse 204 JNull)).
  reflexivity.
Defined.

Lemma gh_request_total_sleep_bound_witness :
  0 <= total_slept (snd (gh_request (answering 503 JNull) client "/user" "GET" [] []))
    <= 3.
Proof.
  apply (gh_request_total_sleep_bound (answering 503 JNull) client "/user" "GET" [] []).
  - reflexivity.
  - simpl. lia.
Defined.

(** An invitation to an org that does not exist comes back as a value. *)
Lemma invite_user_org_returns_any_status_witness :
  invite_user_org (answering 404 not_found) client "nowhere" 42 [JInt 7] "admin" []
  = (inr (mkResponse 404 not_found),
     [Http (gh_request_args client "/orgs/nowhere/invitations" "POST"
              [("invitee_id", JInt 42); ("role", JStr "admin");
               ("team_ids", JList [JInt 7])])]).
Proof.
  apply (invite_user_org_returns_any_status (answering 404 not_found) client "nowhere" 42
           [JInt 7] "admin" [] (mkResponse 404 not_found)).
  - reflexivity.
  - reflexivity.
  - right. reflexivity.
Defined.

Lemma get_user_id_without_id_witness :
  get_user_id (answering 200 (JDict [("login", JStr "octocat")])) client "octocat" []
  = (inl (KeyError "id"), [Http (gh_request_args client "/users/octocat" "GET" [])]).
Proof.
  apply (get_user_id_without_id (answering 200 (JDict [("login", JStr "octocat")]))
           client "octocat" [] (mkResponse 200 (JDict [("login", JStr "octocat")])));
    reflexivity.
Defined.

Lemma list_teams_never_lists_witness :
  fst (list_teams (answering 200 (JList [JDict [("name", JStr "core"); ("id", JInt 1)]]))
         client "acme" [])
  = inl (TypeError "object of type 'Response' has no len()").
Proof.
  destruct (list_teams_never_lists
              (answering 200 (JList [JDict [("name", JStr "core"); ("id", JInt 1)]]))
              client "acme" []) as [_ H].
  apply (H (mkResponse 200 (JList [JDict [("name", JStr "core"); ("id", JInt 1)]])));
    reflexivity.
Defined.


Lemma gh_request_warns_before_each_retry_witness :
  exists k,
    requests_of (snd (gh_request (answering 503 JNull) client "/user" "GET" [] []))
    = [] ++ repeat (gh_request_args client "/user" "GET" []) k
    /\ logged WARNING (snd (gh_request (answering 503 JNull) client "/user" "GET" [] []))
       = [] ++ map (fun attempt =>
                     ("Retrying request (attempt " ++ str_int (attempt + 1) ++ "/"
                      ++ str_int (max_retries client) ++ ")")%string)
                  (map Z.of_nat (seq 1 (k - 1))).
Proof.
  apply (gh_request_warns_before_each_retry (answering 503 JNull) client "/user" "GET"
           [] []).
  apply fresh_delays_ok.
Defined.

(** With the default client and a network that always answers 503: three
    requests, sleeps of 1 and 2 seconds, then the server error. *)
Lemma gh_request_retryable_exhausts_witness :
  let out := gh_request (answering 503 JNull) client "/user" "GET" [] [] in
  fst out = inl (GithubAPIError "GitHub server error" (Some 503) (Some JNull))
  /\ requests_of (snd out) = repeat (gh_request_args client "/user" "GET" []) 3
  /\ sleeps_of (snd out) = [1; 2].
Proof.
  destruct (gh_request_retryable_exhausts (answering 503 JNull) client "/user" "GET" [] []
              (fun _ => mkResponse 503 JNull) JNull) as (H1 & _ & H3 & H4).
  - apply fresh_delays_ok.
  - reflexivity.
  - intros k Hk. split; [reflexivity | right; simpl; lia].
  - reflexivity.
  - split; [exact H1 | split; [exact H3 | exact H4]].
Defined.


(** A 401 after one retried 503, and a 422 at the first attempt. *)
Lemma gh_request_client_error_immediate_witness :
  (let out := gh_request (scripted [Answered (mkResponse 503 JNull)]
                            (Answered (mkResponse 401 bad_credentials)))
                client "/user" "GET" [] [] in
   fst out = inl (GithubAPIError "Authentication failed. Please check your GitHub token"
                    (Some 401) (Some bad_credentials))
   /\ requests_of (snd out) = repeat (gh_request_args client "/user" "GET" []) 2)
  /\ (let out := gh_request (answering 422 JNull) client "/user" "GET" [] [] in
      fst out = inl (GithubAPIError "Client error: 422" (Some 422) (Some JNull))
      /\ requests_of (snd out) = [gh_request_args client "/user" "GET" []]).
Proof.
  split.
  - destruct (gh_request_client_error_immediate
                (scripted [Answered (mkResponse 503 JNull)]
                   (Answered (mkResponse 401 bad_credentials)))
                client "/user" "GET" [] 1 [] (mkResponse 401 bad_credentials)
                bad_credentials)
      as (H1 & _ & H3).
    + apply fresh_delays_ok.
    + reflexivity.
    + intros i Hi. assert (i = 0%nat) as -> by lia. right; left. simpl. lia.
    + reflexivity.
    + simpl. lia.
    + discriminate.
    + discriminate.
    + reflexivity.
    + split; [exact H1 | exact H3].
  - destruct (gh_request_client_error_immediate (answering 422 JNull)
                client "/user" "GET" [] 0 [] (mkResponse 422 JNull) JNull)
      as (H1 & _ & H3).
    + apply fresh_delays_ok.
    + reflexivity.
    + intros i Hi. lia.
    + reflexivity.
    + simpl. lia.
    + discriminate.
    + discriminate.
    + reflexivity.
    + split; [exact H1 | exact H3].
Defined.


(** X16: retried attempts do not change the verdict of
    [is_user_member_of_org]: when the backoffs are lengths [time.sleep]
    accepts, after [j] retried attempts an answer with a status below 400
    or with 404 makes it return whether that status is 204, after [j + 1]
    requests to [/orgs/{org}/members/{user_id}]. *)
Theorem is_user_member_of_org_after_retries (server : nat -> Request -> NetOutcome)
    (self : github) (org : string) (user_id : Z) (j : nat) (w : World) (res : Response) :
  let req := gh_request_args self
               ("/orgs/" ++ org ++ "/members/" ++ str_int user_id)%string "GET" [] in
  delays_ok self ->
  Z.of_nat j < max_retries self ->
  (forall i, (i < j)%nat -> retried (server (sent w + i)%nat req)) ->
  server (sent w + j)%nat req = Answered res ->
  status_code res < 400 \/ status_code res = 404 ->
  let out := is_user_member_of_org server self org user_id w in
  fst out = inr (status_code res =? 204)
  /\ requests_of (snd out) = requests_of w ++ repeat req (S j)
  /\ req_url req
     = ("https://api.github.com/orgs/" ++ org ++ "/members/" ++ str_int user_id)%string.
Proof.
  intros req Hd Hj Hprev Hnet Hs out. subst out req.
  destruct (gh_request_reaches server self
              ("/orgs/" ++ org ++ "/members/" ++ str_int user_id)%string "GET" [] j w)
    as [last H];
    [intros i Hi; apply delays_backoff; [exact Hd | lia] | exact Hj | exact Hprev |].
  unfold is_user_member_of_org.
  erewrite bind_value.
  2:{ rewrite H, gh_loop_cons.
      erewrite bind_value.
      2:{ apply attempt_returns with (res := res);
            [apply delays_backoff; [exact Hd | lia] | | exact Hs].
          now rewrite sent_attempts. }
      reflexivity. }
  unfold ret. cbn [fst snd]. repeat split.
  rewrite <- app_assoc, <- attempts_events_snoc, requests_of_app, requests_of_attempts.
  reflexivity.
Qed.

(** A 500, then the 204 of a member. *)
Lemma is_user_member_of_org_after_retries_witness :
  let out := is_user_member_of_org
               (scripted [Answered (mkResponse 500 JNull)] (Answered (mkResponse 204 JNull)))
               client "acme" 42 [] in
  fst out = inr true
  /\ requests_of (snd out)
     = repeat (gh_request_args client "/orgs/acme/members/42" "GET" []) 2
  /\ req_url (gh_request_args client "/orgs/acme/members/42" "GET" [])
     = "https://api.github.com/orgs/acme/members/42".
Proof.
  apply (is_user_member_of_org_after_retries
           (scripted [Answered (mkResponse 500 JNull)] (Answered (mkResponse 204 JNull)))
           client "acme" 42 1 [] (mkResponse 204 JNull)).
  - apply fresh_delays_ok.
  - reflexivity.
  - intros i Hi. assert (i = 0%nat) as -> by lia. right. simpl. lia.
  - reflexivity.
  - left. simpl. lia.
Defined.

(** ** Where the wrapper leaves the specification *)

(** C1 fails when the last answer is a 503 whose body is an HTML page:
    after three requests and the sleeps of 1 and 2 seconds, [res.json()]
    raises inside the [try], the handler of [RequestException] takes the
    decode error, and the call raises the network error without status
    where the server error is expected. *)
Lemma gh_request_503_html_is_network_error :
  let out := gh_request (answering_html 503) client "/user" "GET" [] [] in
  fst out
  = inl (GithubAPIError "Network error: Expecting value: line 1 column 1 (char 0)"
           None None)
  /\ requests_of (snd out) = repeat (gh_request_args client "/user" "GET" []) 3
  /\ sleeps_of (snd out) = [1; 2]
  /\ (forall response, fst out <> inl (GithubAPIError "GitHub server error" (Some 503)
                                         response)).
Proof. repeat split. discriminate. Qed.

(** C3 fails when the answer is a 401 whose body is an HTML page: the
    decode error of [res.json()] is handled as a network error, so the
    call does not raise at once but sends the request three times, sleeps
    1 and 2 seconds, and ends in the network error. *)
Lemma gh_request_401_html_is_retried :
  let out := gh_request (answering_html 401) client "/user" "GET" [] [] in
  fst out
  = inl (GithubAPIError "Network error: Expecting value: line 1 column 1 (char 0)"
           None None)
  /\ requests_of (snd out) = repeat (gh_request_args client "/user" "GET" []) 3
  /\ sleeps_of (snd out) = [1; 2]
  /\ logged WARNING (snd out)
     = ["Retrying request (attempt 2/3)"; "Retrying request (attempt 3/3)"].
Proof. repeat split. Qed.
